(** * runners-insights: the scraper's line pattern, the cleaning pass and
      the dashboard's grouping and filtering, embedded from
      [src/webparser/parser.py] and [src/visualization/app.py]. *)

From Stdlib Require Import ZArith Ascii String Sorted.
From stdpp Require Import gmap strings list fin_maps pretty.

Open Scope Z_scope.

(** ** Python's backtracking [re] engine, for the constructs the pattern uses

    A Python [str] is modelled as a [string] of 8-bit characters read as the
    code points 0..255; on that range [\d] is exactly [0-9].  The engine is
    the usual backtracking one: alternatives are tried left to right, a greedy
    quantifier tries the longest repetition first, a lazy one the shortest,
    and the first success wins.  Every quantifier of the pattern is applied to
    a single character class, so repetition is a constructor over classes. *)
Module Re.

Definition charset := ascii -> bool.

Inductive regex : Type :=
| Lit (t : string)                                   (* literal text *)
| Rep (p : charset) (lo : nat) (hi : option nat) (greedy : bool)
                                                     (* p{lo,hi} or p{lo,hi}? *)
| Cat (r1 r2 : regex)                                (* r1 r2 *)
| Alt (r1 r2 : regex)                                (* r1|r2 *)
| Opt (r : regex)                                    (* r? *)
| Group (name : string) (r : regex).                 (* (?P<name>r) *)

(** Captured groups: name and matched text, latest binding first. *)
Definition caps := list (string * list ascii).

Definition cont := list ascii -> caps -> option caps.

Notation "a 'orelse' b" :=
  (match a with Some x => Some x | None => b end)
  (at level 70, no associativity, only parsing).

Definition below (hi : option nat) (n : nat) : bool :=
  match hi with None => true | Some h => (n <? h)%nat end.

Fixpoint strip (t s : list ascii) : option (list ascii) :=
  match t, s with
  | [], _ => Some s
  | a :: t', b :: s' => if Ascii.eqb a b then strip t' s' else None
  | _ :: _, [] => None
  end.

(** [rep p lo hi greedy n s k]: [n] characters of the repetition are already
    taken; take more from [s] or hand the rest to [k]. *)
Fixpoint rep (p : charset) (lo : nat) (hi : option nat) (greedy : bool)
    (n : nat) (s : list ascii) (k : list ascii -> option caps) : option caps :=
  if greedy then
    (match s with
     | c :: s' => if p c && below hi n then rep p lo hi greedy (S n) s' k else None
     | [] => None
     end)
    orelse (if (lo <=? n)%nat then k s else None)
  else
    (if (lo <=? n)%nat then k s else None)
    orelse (match s with
            | c :: s' => if p c && below hi n then rep p lo hi greedy (S n) s' k else None
            | [] => None
            end).

(** The text consumed between the subject [s] and its suffix [s']. *)
Definition consumed (s s' : list ascii) : list ascii :=
  take (length s - length s') s.

Fixpoint run (r : regex) (s : list ascii) (g : caps) (k : cont) : option caps :=
  match r with
  | Lit t =>
      match strip (list_ascii_of_string t) s with
      | Some s' => k s' g
      | None => None
      end
  | Rep p lo hi greedy => rep p lo hi greedy 0 s (fun s' => k s' g)
  | Cat r1 r2 => run r1 s g (fun s' g' => run r2 s' g' k)
  | Alt r1 r2 => (run r1 s g k) orelse (run r2 s g k)
  | Opt r1 => (run r1 s g k) orelse (k s g)
  | Group name r1 =>
      run r1 s g (fun s' g' => k s' ((name, consumed s s') :: g'))
  end.

(** [re.match(pattern, subject)]: anchored at the start, not at the end.
    [None] is Python's [None]. *)
Definition re_match (r : regex) (subject : string) : option caps :=
  run r (list_ascii_of_string subject) [] (fun _ g => Some g).

(** [m.group(name)]: the text of the group, [None] if it took no part. *)
Definition group (g : caps) (name : string) : option string :=
  string_of_list_ascii <$> (snd <$> List.find (fun e => String.eqb (fst e) name) g).

(** Character classes. *)
Definition is_digit : charset :=
  fun c => ((48 <=? nat_of_ascii c) && (nat_of_ascii c <=? 57))%nat.
Definition is_chr (a : ascii) : charset := fun c => Ascii.eqb c a.
Definition negate (p : charset) : charset := fun c => negb (p c).
Definition any_of (ps : list charset) : charset := fun c => existsb (fun p => p c) ps.
(** [.] without DOTALL: anything but a line feed. *)
Definition dot : charset := negate (is_chr "010"%char).

Definition plus (p : charset) : regex := Rep p 1 None true.
Definition lazy_plus (p : charset) : regex := Rep p 1 None false.
Definition lazy_star (p : charset) : regex := Rep p 0 None false.
Definition exactly (n : nat) (p : charset) : regex := Rep p n (Some n) true.
Definition one (p : charset) : regex := Rep p 1 (Some 1%nat) true.

(** What a successful run amounts to: [matches r s s' g g'] says that [r]
    consumes [s] down to its suffix [s'] and turns the captures [g] into
    [g'].  The engine's answer is always one of these (see [run_sound]). *)
Definition within (hi : option nat) (n : nat) : Prop :=
  match hi with None => True | Some h => (n <= h)%nat end.

Inductive matches : regex -> list ascii -> list ascii -> caps -> caps -> Prop :=
| matches_lit t s g :
    matches (Lit t) (list_ascii_of_string t ++ s) s g g
| matches_rep p lo hi greedy w s g :
    Forall (fun c => p c = true) w -> (lo <= length w)%nat -> within hi (length w) ->
    matches (Rep p lo hi greedy) (w ++ s) s g g
| matches_cat r1 r2 s s1 s2 g g1 g2 :
    matches r1 s s1 g g1 -> matches r2 s1 s2 g1 g2 ->
    matches (Cat r1 r2) s s2 g g2
| matches_alt_l r1 r2 s s' g g' :
    matches r1 s s' g g' -> matches (Alt r1 r2) s s' g g'
| matches_alt_r r1 r2 s s' g g' :
    matches r2 s s' g g' -> matches (Alt r1 r2) s s' g g'
| matches_opt_some r s s' g g' :
    matches r s s' g g' -> matches (Opt r) s s' g g'
| matches_opt_none r s g :
    matches (Opt r) s s g g
| matches_group name r s s' g g' :
    matches r s s' g g' ->
    matches (Group name r) s s' g ((name, consumed s s') :: g').

(** The same relation read off the expression, as a formula. *)
Fixpoint fits (r : regex) (s s' : list ascii) (g g' : caps) : Prop :=
  match r with
  | Lit t => s = list_ascii_of_string t ++ s' /\ g' = g
  | Rep p lo hi _ =>
      exists w, s = w ++ s' /\ Forall (fun c => p c = true) w /\
                (lo <= length w)%nat /\ within hi (length w) /\ g' = g
  | Cat r1 r2 => exists s1 g1, fits r1 s s1 g g1 /\ fits r2 s1 s' g1 g'
  | Alt r1 r2 => fits r1 s s' g g' \/ fits r2 s s' g g'
  | Opt r1 => fits r1 s s' g g' \/ (s' = s /\ g' = g)
  | Group name r1 => exists g1, fits r1 s s' g g1 /\ g' = (name, consumed s s') :: g1
  end.

Fixpoint cat (rs : list regex) : regex :=
  match rs with
  | [] => Lit ""
  | [r] => r
  | r :: rs' => Cat r (cat rs')
  end.

End Re.

Module Parser.
Import Re.

(** The pattern of [scrape_runners_data] (parser.py, lines 66-67), piece by
    piece in the order it is written. *)
Definition space : charset := is_chr " "%char.

Definition runner_pattern : regex :=
  cat [ Group "Category" (plus (negate space));                     (* (?P<Category>[^ ]+) *)
        plus space;                                                 (*  +                  *)
        Group "Rang" (Alt (plus is_digit)
                     (Alt (Lit "DNF") (Alt (Lit "DSQ") (Lit "OUT")))); (* (?P<Rang>\d+|DNF|DSQ|OUT) *)
        Opt (Lit ".");                                              (* \.?                 *)
        plus space;                                                 (*  +                  *)
        Group "Fullname" (lazy_plus (negate is_digit));             (* (?P<Fullname>[^\d]+?) *)
        plus space;                                                 (*  +                  *)
        Group "Age_year" (Alt (exactly 4 is_digit)
                              (exactly 4 (is_chr "?"%char)));       (* (?P<Age_year>\d{4}|\?{4}) *)
        plus space;                                                 (*  +                  *)
        Group "Location" (lazy_star dot);                           (* (?P<Location>.*?)   *)
        plus space;                                                 (*  +                  *)
        Opt (Group "total_time"
               (plus (any_of [is_digit; is_chr ":"%char; is_chr "."%char;
                              is_chr ","%char])));                  (* (?P<total_time>[\d:.,]+)? *)
        plus space;                                                 (*  +                  *)
        lazy_star dot;                                              (* .*?                 *)
        one (negate space);                                         (* [^ ]                *)
        plus space;                                                 (*  +                  *)
        Lit "(";                                                    (* \(                  *)
        plus is_digit;                                              (* \d+                 *)
        Lit ")" ].                                                  (* \)                  *)

(** *** Cells, rows and frames

    A cell of an object or integer column.  [VNA] stands for both NaN and
    [<NA>]; a float column obtained from digit strings holds integral values
    only and is kept as [VInt]. *)
Inductive value : Type :=
| VStr (s : string)
| VInt (z : Z)
| VNone
| VNA.

(** A DataFrame is its columns, each the list of its cells in index order.
    Every frame below has the default index 0..n-1 ([reset_index(drop=True)]),
    so pandas' alignment on index labels is positional. *)
Abbreviation DataFrame := (gmap string (list value)).

Inductive exn : Type :=
| AttributeError
| KeyError (k : string)
| TypeError
| OverflowError.

Inductive result (A : Type) : Type :=
| Ok (a : A)
| Raise (e : exn).
Arguments Ok {A} a.
Arguments Raise {A} e.

#[global] Instance result_ret : MRet result := fun _ a => Ok a.
#[global] Instance result_bind : MBind result := fun _ _ f m =>
  match m with Ok a => f a | Raise e => Raise e end.

(** [try: body  except: handler] followed by [rest]. *)
Definition try_except {A B} (body : result A) (handler : result B)
    (rest : A -> result B) : result B :=
  match body with Ok a => rest a | Raise _ => handler end.

Fixpoint group_names (r : regex) : list string :=
  match r with
  | Lit _ | Rep _ _ _ _ => []
  | Cat r1 r2 | Alt r1 r2 => group_names r1 ++ group_names r2
  | Opt r1 => group_names r1
  | Group name r1 => name :: group_names r1
  end.

(** [m.groupdict()]: every named group of the pattern, [None] for a group
    that took no part in the match. *)
Definition groupdict (r : regex) (g : caps) : gmap string value :=
  list_to_map
    (List.map (fun name => (name, from_option VStr VNone (group g name)))
              (group_names r)).

(** [re.match(...).groupdict()]; [re.match] returning [None] makes the
    attribute access raise. *)
Definition match_groupdict (runner : string) : result (gmap string value) :=
  match re_match runner_pattern runner with
  | Some g => Ok (groupdict runner_pattern g)
  | None => Raise AttributeError
  end.

(** [row[key]] on a dict. *)
Definition getitem (row : gmap string value) (key : string) : result value :=
  match row !! key with
  | Some v => Ok v
  | None => Raise (KeyError key)
  end.

Definition columns : list string :=
  [ "Category"; "Rang"; "Fullname"; "Age_year"; "Location"; "total_time";
    "run_link"; "run_year" ].

(** [pd.DataFrame(columns=columns)] *)
Definition empty_frame : DataFrame :=
  list_to_map (List.map (fun c => (c, [])) columns).

(** The one-row frame of lines 73-85; [year] is the value of [int(year)]. *)
Definition new_row (row : gmap string value) (url : string) (year : Z)
    : result (gmap string value) :=
  category ← getitem row "Category";
  rang ← getitem row "Rang";
  fullname ← getitem row "Fullname";
  age_year ← getitem row "Age_year";
  location ← getitem row "Location";
  total_time ← getitem row "total_time";
  mret (<["Category" := category]> (<["Rang" := rang]> (<["Fullname" := fullname]>
       (<["Age_year" := age_year]> (<["Location" := location]>
       (<["total_time" := total_time]> (<["run_link" := VStr url]>
       (<["run_year" := VInt year]> ∅)))))))).

(** A completely populated record: the five required fields and the link as
    text, the optional time as text or [None], the year as an integer. *)
Definition raw_record (category rang fullname age_year location : string)
    (total_time : option string) (url : string) (year : Z) : gmap string value :=
  <["Category" := VStr category]> (<["Rang" := VStr rang]> (<["Fullname" := VStr fullname]>
  (<["Age_year" := VStr age_year]> (<["Location" := VStr location]>
  (<["total_time" := from_option VStr VNone total_time]> (<["run_link" := VStr url]>
  (<["run_year" := VInt year]> ∅))))))).

(** [pd.concat([new_row, df.loc[:]]).reset_index(drop=True)]: the new row
    goes on top.  Both frames carry the same eight columns, on which the
    column-wise outer join of [concat] is this positional one. *)
Definition concat_row (row : gmap string value) (df : DataFrame) : DataFrame :=
  map_zip_with (fun v col => v :: col) row df.

(** Body of [for runner in runners] (lines 63-87). *)
Definition scrape_runner (url : string) (year : Z) (df : DataFrame)
    (runner : string) : result DataFrame :=
  try_except (match_groupdict runner)
    (Ok df)                                            (* except: continue *)
    (fun row => r ← new_row row url year; mret (concat_row r df)).

Fixpoint scrape_runners (url : string) (year : Z) (df : DataFrame)
    (runners : list string) : result DataFrame :=
  match runners with
  | [] => Ok df
  | runner :: rest =>
      df' ← scrape_runner url year df runner;
      scrape_runners url year df' rest
  end.

(** *** [clean_runners_data]

    The parameter [df] names the caller's frame object; item assignment
    changes that object, [df = ...] rebinds the local name to a new one.
    A program therefore runs on the state of the caller's object. *)
Definition prog (A : Type) : Type := DataFrame -> result A * DataFrame.

#[global] Instance prog_ret : MRet prog := fun _ a st => (Ok a, st).
#[global] Instance prog_bind : MBind prog := fun _ _ f m st =>
  match m st with
  | (Ok a, st') => f a st'
  | (Raise e, st') => (Raise e, st')
  end.

Definition lift {A} (r : result A) : prog A := fun st => (r, st).
(** [df[c]] *)
Definition getcol (c : string) : prog (list value) := fun st =>
  match st !! c with
  | Some col => (Ok col, st)
  | None => (Raise (KeyError c), st)
  end.
(** [df[c] = col] *)
Definition setcol (c : string) (col : list value) : prog unit := fun st =>
  (Ok tt, <[c := col]> st).
(** the object itself, as read by [df[mask]] *)
Definition this : prog DataFrame := fun st => (Ok st, st).

(** Decimal value of a string of ASCII digits. *)
Definition digit_val (c : ascii) : Z := Z.of_nat (nat_of_ascii c) - 48.
Definition decimal (s : string) : Z :=
  fold_left (fun acc c => 10 * acc + digit_val c) (list_ascii_of_string s) 0.
Definition all_digits (s : string) : bool :=
  negb (String.eqb s "") && forallb is_digit (list_ascii_of_string s).

(** [pd.to_numeric(col, errors="coerce")], cell by cell.  A string of digits
    is its value and a string with no numeric reading ("????") is NaN.
    pandas reads further spellings as numbers (signs, blanks, fractions,
    exponents); a RawRecord never holds one, and the statements below are
    about frames of RawRecords ([raw_frame]). *)
Definition to_numeric_cell (v : value) : value :=
  match v with
  | VStr s => if all_digits s then VInt (decimal s) else VNA
  | VInt z => VInt z
  | VNone | VNA => VNA
  end.
Definition to_numeric (col : list value) : list value := List.map to_numeric_cell col.

Definition int64_min : Z := - 2 ^ 63.
Definition int64_max : Z := 2 ^ 63 - 1.
Definition in_int64 (z : Z) : bool := (int64_min <=? z) && (z <=? int64_max).
(** two's-complement wrap-around of 64-bit arithmetic *)
Definition wrap64 (z : Z) : Z := (z + 2 ^ 63) mod 2 ^ 64 - 2 ^ 63.

(** [col.astype("Int64")], cell by cell: integers must fit 64 bits, missing
    values become [<NA>]. *)
Definition astype_Int64_cell (v : value) : result value :=
  match v with
  | VInt z => if in_int64 z then Ok (VInt z) else Raise OverflowError
  | VNone | VNA => Ok VNA
  | VStr _ => Raise TypeError
  end.
Fixpoint astype_Int64 (col : list value) : result (list value) :=
  match col with
  | [] => Ok []
  | v :: rest =>
      v' ← astype_Int64_cell v;
      rest' ← astype_Int64 rest;
      mret (v' :: rest')
  end.

(** [a - b] on Int64 cells. *)
Definition sub_cell (a b : value) : value :=
  match a, b with
  | VInt x, VInt y => VInt (wrap64 (x - y))
  | _, _ => VNA
  end.
Definition sub_Int64 (a b : list value) : list value := zip_with sub_cell a b.

(** [col.notna()] *)
Definition notna_cell (v : value) : bool :=
  match v with VNA | VNone => false | _ => true end.
(** [col > 0] on an Int64 column: a nullable boolean *)
Definition gt0_cell (v : value) : option bool :=
  match v with VInt z => Some (0 <? z) | _ => None end.
(** [a & b] of a boolean and a nullable boolean (Kleene logic) *)
Definition and_cell (a : bool) (b : option bool) : option bool :=
  if a then b else Some false.
(** A missing mask entry selects nothing. *)
Definition selects (m : option bool) : bool := from_option id false m.

Definition keep_mask (age : list value) : list bool :=
  List.map selects (zip_with and_cell (List.map notna_cell age) (List.map gt0_cell age)).

(** rows of one column picked by a boolean mask *)
Fixpoint pick {A} (mask : list bool) (col : list A) : list A :=
  match mask, col with
  | b :: mask', v :: col' => if b then v :: pick mask' col' else pick mask' col'
  | _, _ => []
  end.
(** [df[mask]] *)
Definition select (mask : list bool) (df : DataFrame) : DataFrame :=
  pick mask <$> df.

(** [df.drop(columns=[c])] *)
Definition drop_column (c : string) (df : DataFrame) : result DataFrame :=
  match df !! c with
  | Some _ => Ok (delete c df)
  | None => Raise (KeyError c)
  end.

(** parser.py, lines 92-113.  The result pairs the returned frame (or the
    exception) with the final state of the caller's frame. *)
Definition clean_runners_data : prog DataFrame :=
  col ← getcol "Age_year";
  setcol "Age_year" (to_numeric col);;                      (* line 102 *)
  col ← getcol "Age_year";
  col ← lift (astype_Int64 col);
  setcol "Age_year" col;;                                   (* line 103 *)
  col ← getcol "run_year";
  col ← lift (astype_Int64 col);
  setcol "run_year" col;;                                   (* line 104 *)
  run_year ← getcol "run_year";
  age_year ← getcol "Age_year";
  setcol "age" (sub_Int64 run_year age_year);;              (* line 107 *)
  age ← getcol "age";
  caller ← this;
  let df1 := select (keep_mask age) caller in               (* line 108 *)
  df2 ← lift (drop_column "age" df1);                       (* line 111 *)
  mret df2.


(** *** Frames of RawRecords

    What the pattern lets into the two year columns: a rank is digits or one
    of the three tokens, a birth year four digits or four question marks. *)
Definition rank_ok (s : string) : bool :=
  all_digits s || String.eqb s "DNF" || String.eqb s "DSQ" || String.eqb s "OUT".
Definition birth_year_ok (s : string) : bool :=
  (Nat.eqb (String.length s) 4 && forallb is_digit (list_ascii_of_string s))
  || String.eqb s "????".

Definition raw_birth_year (v : value) : bool :=
  match v with VStr s => birth_year_ok s | _ => false end.
Definition raw_event_year (v : value) : bool :=
  match v with VInt z => in_int64 z | _ => false end.
Definition has_column (df : DataFrame) (n : nat) (c : string) : bool :=
  match df !! c with Some col => Nat.eqb (length col) n | None => false end.

(** The frame [scrape_runners_data] hands over: the eight columns, all of one
    length, birth years as matched text, event years as 64-bit integers. *)
Definition raw_frame (df : DataFrame) : bool :=
  match df !! "Age_year", df !! "run_year" with
  | Some age_year, Some run_year =>
      forallb (has_column df (length age_year)) columns
      && forallb raw_birth_year age_year
      && forallb raw_event_year run_year
  | _, _ => false
  end.

(** Sample lines that differ in the rank token only. *)
Definition ranked_line (rang : string) (period : bool) : string :=
  "M40 " +:+ rang +:+ (if period then "." else "")
         +:+ " Jane Doe 1980 Zurich 3:45:10 4567 (55)".

(** The pattern after the rank group, the rest of a sample line after its
    rank, and the groups a sample line binds. *)
Definition after_rank : regex :=
  Eval cbv [runner_pattern cat plus] in
  match runner_pattern with Cat _ (Cat _ (Cat _ r)) => r | _ => Lit "" end.

Definition ranked_tail (period : bool) : list ascii :=
  list_ascii_of_string (if period then "." else "") ++
  list_ascii_of_string " Jane Doe 1980 Zurich 3:45:10 4567 (55)".

Definition ranked_captures (w : list ascii) : caps :=
  [ ("total_time", list_ascii_of_string "3:45:10");
    ("Location", list_ascii_of_string "Zurich");
    ("Age_year", list_ascii_of_string "1980");
    ("Fullname", list_ascii_of_string "Jane Doe");
    ("Rang", w);
    ("Category", list_ascii_of_string "M40") ].

(** The line of the spec's scenario, and the same line with one more token
    before the parenthesised number. *)
Definition scenario_line : string := "M40 123 Jane Doe 1980 Zurich 3:45:10 (55)".
Definition scenario_line_with_token : string :=
  "M40 123 Jane Doe 1980 Zurich 3:45:10 4567 (55)".

(** A frame scraped from three lines, one of them not a result line. *)
Definition sample_lines : list string :=
  [ "M40 123 Jane Doe 1980 Zurich 3:45:10 4567 (55)";
    "Rang Name Jahrgang Ort Zeit";
    "W20 DNF. Ann Muster ???? Bern  4567 (12)" ].
Definition sample_frame : DataFrame :=
  match scrape_runners "alfaa.htm" 2020 empty_frame sample_lines with
  | Ok df => df
  | Raise _ => empty_frame
  end.

(** The mask entry of one age cell (line 108). *)
Definition keep_cell (v : value) : bool :=
  selects (and_cell (notna_cell v) (gt0_cell v)).

(** A kept row, seen in its two year cells: integers both, the age (their
    64-bit difference) positive, and the plain difference positive as well
    unless the event year is within 9999 of the smallest 64-bit integer. *)
Definition valid_row (a r : value) : Prop :=
  exists b e, a = VInt b /\ r = VInt e /\ 0 < wrap64 (e - b) /\
              (int64_min + 9999 <= e -> 0 < e - b).

(** A cell of a nullable 64-bit integer column. *)
Definition int64_cell (v : value) : bool :=
  match v with VInt z => in_int64 z | VNA => true | _ => false end.

(** *** The whole of [scrape_runners_data] (lines 10-89)

    The library calls around the line loop are parameters.  [get url] is
    [requests.get] followed by [raise_for_status]: the text of the page, or
    [None] when one of the four [except] clauses is taken.  [runners_of page]
    is the list built from the parsed page on lines 56-61.  [int] is Python's
    [int] on a string. *)
Inductive fetch_error : Type :=
| HTTPError | ConnectionError | Timeout | RequestException.

(** [list(string.ascii_lowercase)] *)
Definition letters : list string :=
  List.map (fun c => String c EmptyString)
           (list_ascii_of_string "abcdefghijklmnopqrstuvwxyz").

(** line 39 *)
Definition url_of (year letter : string) : string :=
  "https://services.datasport.com/" +:+ year +:+ "/lauf/zuerich/alfa"
    +:+ letter +:+ ".htm".

Section Scraper.

Variable get : string -> fetch_error + string.
Variable runners_of : string -> list string.
Variable int : string -> result Z.

(** lines 73-85 with the year as the loop has it, a string: the entries of
    the dict are evaluated in the order they are written. *)
Definition new_row_of (row : gmap string value) (url year : string)
    : result (gmap string value) :=
  category ← getitem row "Category";
  rang ← getitem row "Rang";
  fullname ← getitem row "Fullname";
  age_year ← getitem row "Age_year";
  location ← getitem row "Location";
  total_time ← getitem row "total_time";
  run_year ← int year;
  mret (<["Category" := category]> (<["Rang" := rang]> (<["Fullname" := fullname]>
       (<["Age_year" := age_year]> (<["Location" := location]>
       (<["total_time" := total_time]> (<["run_link" := VStr url]>
       (<["run_year" := VInt run_year]> ∅)))))))).

(** lines 63-87 *)
Fixpoint scrape_page (url year : string) (df : DataFrame) (runners : list string)
    : result DataFrame :=
  match runners with
  | [] => Ok df
  | runner :: rest =>
      df' ← try_except (match_groupdict runner)
              (Ok df)                                          (* except: continue *)
              (fun row => r ← new_row_of row url year; mret (concat_row r df));
      scrape_page url year df' rest
  end.

(** lines 39-61 and the line loop, for one letter of one year *)
Definition scrape_letter (year : string) (df : DataFrame) (letter : string)
    : result DataFrame :=
  let url := url_of year letter in
  match get url with
  | inl _ => Ok df                                             (* continue *)
  | inr page => scrape_page url year df (runners_of page)
  end.

Fixpoint scrape_letters (year : string) (df : DataFrame) (ls : list string)
    : result DataFrame :=
  match ls with
  | [] => Ok df
  | letter :: rest =>
      df' ← scrape_letter year df letter;
      scrape_letters year df' rest
  end.

Fixpoint scrape_years (df : DataFrame) (years : list string) : result DataFrame :=
  match years with
  | [] => Ok df
  | year :: rest =>
      df' ← scrape_letters year df letters;
      scrape_years df' rest
  end.

Definition scrape_runners_data (years : list string) : result DataFrame :=
  scrape_years empty_frame years.

(** What the loops amount to: the records of the lines that match, page by
    page in the order the pages are asked for. *)
Definition record_of (url : string) (year : Z) (runner : string)
    : option (gmap string value) :=
  g ← re_match runner_pattern runner;
  category ← group g "Category";
  rang ← group g "Rang";
  fullname ← group g "Fullname";
  age_year ← group g "Age_year";
  location ← group g "Location";
  Some (raw_record category rang fullname age_year location
                   (group g "total_time") url year).

Definition records_of_letter (year : string) (y : Z) (letter : string)
    : list (gmap string value) :=
  match get (url_of year letter) with
  | inl _ => []
  | inr page => omap (record_of (url_of year letter) y) (runners_of page)
  end.

Definition records_of_year (year : string) (y : Z) : list (gmap string value) :=
  concat (List.map (records_of_letter year y) letters).

End Scraper.

(** A frame with the given records stacked on it, the last one on top. *)
Definition stack (records : list (gmap string value)) (df : DataFrame) : DataFrame :=
  fold_left (fun df r => concat_row r df) records df.

(** A function that agrees with [int] on strings of ASCII digits (such as the
    years of [main]), which is all that is asked of [int] below. *)
Definition int_of_digits (s : string) : result Z := Ok (decimal s).

(** A record as the line loop builds it from a match, with a year that fits
    64 bits. *)
Definition raw_row (r : gmap string value) : Prop :=
  exists category rang fullname age_year location total_time url year,
    r = raw_record category rang fullname age_year location total_time url year
    /\ rank_ok rang = true /\ birth_year_ok age_year = true
    /\ in_int64 year = true.

(** The class [[\d:.,]] of the time group, and the characters of a string. *)
Definition time_char : charset :=
  any_of [is_digit; is_chr ":"%char; is_chr "."%char; is_chr ","%char].
Definition chars (s : string) : list ascii := list_ascii_of_string s.

(** A network on which one page exists, holding the sample lines. *)
Definition sample_get (url : string) : fetch_error + string :=
  if String.eqb url (url_of "2014" "a") then inr "<page>" else inl HTTPError.
Definition sample_runners_of (page : string) : list string := sample_lines.

(** The years of [main] (line 166). *)
Definition main_years : list string := ["2014"; "2015"; "2016"; "2017"; "2018"].

(** *** The dtype of a column

    What [astype("Int64")] does to a column of integers is not seen in its
    cells: the integers of an [int64] column and of a nullable [Int64] column
    are the same.  Here the pass is given with every column carrying its
    dtype beside its cells.  Forgetting the dtypes gives [clean_runners_data]
    back, on every frame and with its exceptions. *)
Inductive dtype : Set := object_ | int64 | float64 | Int64.
Abbreviation Series := (dtype * list value)%type.
Abbreviation TypedFrame := (gmap string (dtype * list value)).

Definition cells (tdf : TypedFrame) : DataFrame := snd <$> tdf.
Definition dtype_of (tdf : TypedFrame) (c : string) : option dtype := fst <$> tdf !! c.

Definition tprog (A : Type) : Type := TypedFrame -> result A * TypedFrame.

#[global] Instance tprog_ret : MRet tprog := fun _ a st => (Ok a, st).
#[global] Instance tprog_bind : MBind tprog := fun _ _ f m st =>
  match m st with
  | (Ok a, st') => f a st'
  | (Raise e, st') => (Raise e, st')
  end.

Definition typed_lift {A} (r : result A) : tprog A := fun st => (r, st).
(** [df[c]] *)
Definition typed_getcol (c : string) : tprog Series := fun st =>
  match st !! c with
  | Some col => (Ok col, st)
  | None => (Raise (KeyError c), st)
  end.
(** [df[c] = col] *)
Definition typed_setcol (c : string) (col : Series) : tprog unit := fun st =>
  (Ok tt, <[c := col]> st).
Definition typed_this : tprog TypedFrame := fun st => (Ok st, st).

(** [pd.to_numeric(col, errors="coerce")]: a column that is numeric already
    is returned as it is; an object column becomes [int64] when every cell
    has a value and [float64] when one is NaN. *)
Definition to_numeric_dtype (d : dtype) (converted : list value) : dtype :=
  match d with
  | object_ => if forallb notna_cell converted then int64 else float64
  | _ => d
  end.
Definition to_numeric_series (col : Series) : Series :=
  let converted := to_numeric (snd col) in
  (to_numeric_dtype (fst col) converted, converted).

(** [col.astype("Int64")]: the cells as [astype_Int64] has them, in a column
    of the nullable dtype. *)
Definition astype_Int64_series (col : Series) : result Series :=
  converted ← astype_Int64 (snd col);
  mret (Int64, converted).

(** [a - b] of two Int64 columns is an Int64 column. *)
Definition sub_series (a b : Series) : Series :=
  (Int64, sub_Int64 (snd a) (snd b)).

(** [df[mask]] keeps the dtype of every column. *)
Definition select_typed (mask : list bool) (tdf : TypedFrame) : TypedFrame :=
  (fun col => (fst col, pick mask (snd col))) <$> tdf.

Definition drop_typed_column (c : string) (tdf : TypedFrame) : result TypedFrame :=
  match tdf !! c with
  | Some _ => Ok (delete c tdf)
  | None => Raise (KeyError c)
  end.

(** parser.py, lines 92-113, with dtypes. *)
Definition clean_runners_data_typed : tprog TypedFrame :=
  col ← typed_getcol "Age_year";
  typed_setcol "Age_year" (to_numeric_series col);;         (* line 102 *)
  col ← typed_getcol "Age_year";
  col ← typed_lift (astype_Int64_series col);
  typed_setcol "Age_year" col;;                             (* line 103 *)
  col ← typed_getcol "run_year";
  col ← typed_lift (astype_Int64_series col);
  typed_setcol "run_year" col;;                             (* line 104 *)
  run_year ← typed_getcol "run_year";
  age_year ← typed_getcol "Age_year";
  typed_setcol "age" (sub_series run_year age_year);;       (* line 107 *)
  age ← typed_getcol "age";
  caller ← typed_this;
  let df1 := select_typed (keep_mask (snd age)) caller in   (* line 108 *)
  df2 ← typed_lift (drop_typed_column "age" df1);           (* line 111 *)
  mret df2.

(** An outcome of the typed pass with the dtypes forgotten. *)
Definition forget (r : result TypedFrame * TypedFrame) : result DataFrame * DataFrame :=
  (match fst r with Ok out => Ok (cells out) | Raise e => Raise e end, cells (snd r)).

(** The dtypes of the frame [scrape_runners_data] hands over: the birth years
    are matched text in an object column; the event years are Python integers,
    in an [int64] column, or in an object column where [concat] lets the empty
    starting frame take part in the dtype of the result. *)
Definition typed_raw_frame (tdf : TypedFrame) : bool :=
  raw_frame (cells tdf)
  && match dtype_of tdf "Age_year" with Some object_ => true | _ => false end
  && match dtype_of tdf "run_year" with
     | Some object_ | Some int64 => true
     | _ => false
     end.

(** The sample frame with its dtypes. *)
Definition sample_typed_frame : TypedFrame :=
  map_imap (fun c col => Some (if String.eqb c "run_year" then int64 else object_, col))
           sample_frame.

(** *** [save_to_sqlite] (lines 127-157)

    A database holds, under the name of each table, its rows in the order in
    which they were inserted; a row holds a value under each column name. *)
Inductive sql_value : Set :=
  | SqlInteger (z : Z)
  | SqlText (s : string)
  | SqlNull.
Abbreviation sql_row := (gmap string sql_value).
Abbreviation database := (gmap string (list (gmap string sql_value))).

(** What is bound to a statement for a cell: a string as TEXT, an integer as
    INTEGER, [None] and a missing value as NULL. *)
Definition adapt (v : value) : sql_value :=
  match v with
  | VStr s => SqlText s
  | VInt z => SqlInteger z
  | VNone | VNA => SqlNull
  end.

(** [len(df)]; the columns of a frame have one length. *)
Definition height (df : DataFrame) : nat :=
  match map_to_list df with
  | (_, col) :: _ => length col
  | [] => 0%nat
  end.

(** Row [i] of the frame: the cell of every column. *)
Definition frame_row (df : DataFrame) (i : nat) : gmap string sql_value :=
  omap (fun col => adapt <$> col !! i) df.

(** [CREATE TABLE IF NOT EXISTS] (lines 137-151) *)
Definition create_table_if_not_exists (table_name : string) (db : database) : database :=
  match db !! table_name with
  | Some _ => db
  | None => <[table_name := []]> db
  end.

(** [df.to_sql(table_name, conn, if_exists="replace", index=True,
    index_label=...)] (line 154): the table is dropped and made again, with
    one row per row of the frame, the index under [index_label].  The frame
    comes from [reset_index(drop=True)], its index is 0, 1, 2, ... *)
Definition to_sql (df : DataFrame) (table_name index_label : string) (db : database)
    : database :=
  <[table_name :=
      List.map (fun i => <[index_label := SqlInteger (Z.of_nat i)]> (frame_row df i))
               (seq 0 (height df))]> db.

(** The database file before and after the call. *)
Definition save_to_sqlite (df : DataFrame) (table_name : string) (db : database)
    : database :=
  to_sql df table_name "Id" (create_table_if_not_exists table_name db).

End Parser.

(** ** The dashboard, [src/visualization/app.py] *)
Module App.
Import Parser.

(** lines 25-44 *)
Definition set_age_group (age : Z) : string :=
  if age <=? 20 then "0-20"
  else if (20 <? age) && (age <=? 30) then "20-30"
  else if (30 <? age) && (age <=? 40) then "30-40"
  else if (40 <? age) && (age <=? 50) then "40-50"
  else "50+".

(** A row of [SELECT * FROM runners].  The table is the one written by
    [save_to_sqlite]: two 64-bit integer columns without nulls (the cleaning
    pass leaves none), text elsewhere. *)
Record Runner : Type := {
  Id : Z;
  Category : string;
  Rang : string;
  Fullname : string;
  Age_year : Z;
  Location : string;
  total_time : option string;
  run_link : string;
  run_year : Z
}.

(** A row of the global [df] once lines 48-49 have added their columns. *)
Record Athlete : Type := {
  runner : Runner;
  age : Z;
  age_group : string
}.

(** A row of [df2]: key columns and ["Count athletes"]. *)
Record GroupRow : Type := {
  g_run_year : Z;
  g_age_group : string;
  Count_athletes : Z
}.

Definition key : Type := Z * string.

(** Order of the group keys: by year, then by the label as Python orders
    strings (code point by code point). *)
Definition key_compare (a b : key) : comparison :=
  match Z.compare (fst a) (fst b) with
  | Eq => String.compare (snd a) (snd b)
  | c => c
  end.

(** Count one more member of group [k] in a key-sorted list of groups. *)
Fixpoint tally (k : key) (groups : list GroupRow) : list GroupRow :=
  match groups with
  | [] => [ {| g_run_year := fst k; g_age_group := snd k; Count_athletes := 1 |} ]
  | g :: rest =>
      match key_compare k (g_run_year g, g_age_group g) with
      | Eq => {| g_run_year := g_run_year g; g_age_group := g_age_group g;
                 Count_athletes := Count_athletes g + 1 |} :: rest
      | Lt => {| g_run_year := fst k; g_age_group := snd k; Count_athletes := 1 |}
              :: groups
      | Gt => g :: tally k rest
      end
  end.

(** [groupby(keys).size().reset_index(name="Count athletes")]: one row per
    key that occurs, in key order, with the number of its members. *)
Definition groupby_size (keys : list key) : list GroupRow :=
  fold_left (fun groups k => tally k groups) keys [].

(** [if selection:] is false for [None] and for the empty list. *)
Definition truthy (selection : option (list string)) : bool :=
  match selection with
  | Some (_ :: _) => true
  | _ => false
  end.

(** [Series.isin(selection)] on one cell: equal to some element. *)
Definition isin (cell : string) (selection : option (list string)) : bool :=
  match selection with
  | Some l => existsb (String.eqb cell) l
  | None => false
  end.

(** [astype(str)] of a 64-bit integer: its decimal numeral. *)
Definition str (z : Z) : string := pretty z.

Section Dashboard.

(** The rows read at start-up (lines 20-22). *)
Variable table : list Runner.

(** lines 48-49; the difference of two int64 columns wraps. *)
Definition df : list Athlete :=
  List.map (fun r =>
              let a := wrap64 (run_year r - Age_year r) in
              {| runner := r; age := a; age_group := set_age_group a |})
           table.

(** line 52 *)
Definition df2 : list GroupRow :=
  groupby_size (List.map (fun a => (run_year (runner a), age_group a)) df).

(** lines 122-165: the frame handed to [px.bar] and the table records. *)
Definition update_chart_and_table (selected_years selected_age_groups : option (list string))
    : list GroupRow * list Athlete :=
  let filtered_data := df in
  let filtered_bar_data := df2 in
  let '(filtered_data, filtered_bar_data) :=
    if truthy selected_years then
      (List.filter (fun a => isin (str (run_year (runner a))) selected_years) filtered_data,
       List.filter (fun g => isin (str (g_run_year g)) selected_years) filtered_bar_data)
    else (filtered_data, filtered_bar_data) in
  let '(filtered_data, filtered_bar_data) :=
    if truthy selected_age_groups then
      (List.filter (fun a => isin (age_group a) selected_age_groups) filtered_data,
       List.filter (fun g => isin (g_age_group g) selected_age_groups) filtered_bar_data)
    else (filtered_data, filtered_bar_data) in
  (filtered_bar_data, filtered_data).

End Dashboard.

(** The grouping key of a row of [df] and of a row of [df2]; the total of
    the counts of some groups; the restriction a pair of selections puts on a
    key. *)
Definition athlete_key (a : Athlete) : key := (run_year (runner a), age_group a).
Definition group_key (g : GroupRow) : key := (g_run_year g, g_age_group g).
Definition sum_counts (groups : list GroupRow) : Z :=
  fold_right Z.add 0 (List.map Count_athletes groups).
Definition key_lt (a b : key) : Prop := key_compare a b = Lt.
Definition selected (years groups : option (list string)) (k : key) : bool :=
  (negb (truthy years) || isin (str (fst k)) years)
  && (negb (truthy groups) || isin (snd k) groups).

(** [Series.unique()]: the distinct values in the order they first appear. *)
Fixpoint unique {A} `{EqDecision A} (l : list A) : list A :=
  match l with
  | [] => []
  | x :: rest => x :: List.filter (fun y => negb (bool_decide (y = x))) (unique rest)
  end.

(** The values offered by the two dropdowns (lines 79-82 and 93-96). *)
Definition year_options (table : list Runner) : list string :=
  List.map str (unique (List.map (fun a => run_year (runner a)) (df table))).
Definition age_group_options (table : list Runner) : list string :=
  unique (List.map age_group (df table)).

(** [save_to_sqlite] followed by the dashboard's [SELECT *]: row [i] of the
    cleaned frame comes back with [Id = i]. *)
Definition as_str (v : value) : option string :=
  match v with VStr s => Some s | _ => None end.
Definition as_int (v : value) : option Z :=
  match v with VInt z => Some z | _ => None end.
Definition as_text (v : value) : option (option string) :=
  match v with VStr s => Some (Some s) | VNone | VNA => Some None | VInt _ => None end.

Definition cell (frame : DataFrame) (c : string) (i : nat) : option value :=
  col ← frame !! c; col !! i.

Definition stored_row (frame : DataFrame) (i : nat) : option Runner :=
  category ← cell frame "Category" i ≫= as_str;
  rang ← cell frame "Rang" i ≫= as_str;
  fullname ← cell frame "Fullname" i ≫= as_str;
  age_year ← cell frame "Age_year" i ≫= as_int;
  location ← cell frame "Location" i ≫= as_str;
  time ← cell frame "total_time" i ≫= as_text;
  link ← cell frame "run_link" i ≫= as_str;
  year ← cell frame "run_year" i ≫= as_int;
  Some {| Id := Z.of_nat i; Category := category; Rang := rang; Fullname := fullname;
          Age_year := age_year; Location := location; total_time := time;
          run_link := link; run_year := year |}.

Definition stored_table (frame : DataFrame) : option (list Runner) :=
  col ← frame !! "run_year";
  mapM (stored_row frame) (seq 0 (length col)).

(** A frame that fits the table of [save_to_sqlite]: the eight columns with
    [k] cells each, integers in the two year columns, text elsewhere, and text
    or nothing as the time. *)
Definition is_str (v : value) : bool := match v with VStr _ => true | _ => false end.
Definition is_int (v : value) : bool := match v with VInt _ => true | _ => false end.
Definition is_text (v : value) : bool :=
  match v with VStr _ | VNone | VNA => true | VInt _ => false end.
Definition column_ok (frame : DataFrame) (k : nat) (ok : value -> bool) (c : string)
    : bool :=
  match frame !! c with
  | Some col => Nat.eqb (length col) k && forallb ok col
  | None => false
  end.
Definition storable (frame : DataFrame) (k : nat) : bool :=
  forallb (column_ok frame k is_str) ["Category"; "Rang"; "Fullname"; "Location"; "run_link"]
  && forallb (column_ok frame k is_int) ["Age_year"; "run_year"]
  && column_ok frame k is_text "total_time".

(** The frame the cleaning pass returns for the sample frame. *)
Definition sample_cleaned : DataFrame :=
  match fst (clean_runners_data sample_frame) with
  | Ok out => out
  | Raise _ => ∅
  end.

(** The table holding the one record of the first sample line. *)
Definition sample_table : list Runner :=
  [ {| Id := 0; Category := "M40"; Rang := "123"; Fullname := "Jane Doe";
       Age_year := 1980; Location := "Zurich"; total_time := Some "3:45:10";
       run_link := "alfaa.htm"; run_year := 2020 |} ].

(** [pd.read_sql_query("SELECT * FROM runners", conn)] (lines 20-22), read as
    the typed rows of the dashboard: every row of the table, in order, each
    column by its name. *)
Definition sql_text (v : sql_value) : option string :=
  match v with SqlText s => Some s | _ => None end.
Definition sql_integer (v : sql_value) : option Z :=
  match v with SqlInteger z => Some z | _ => None end.
Definition sql_nullable_text (v : sql_value) : option (option string) :=
  match v with SqlText s => Some (Some s) | SqlNull => Some None | SqlInteger _ => None end.

Definition runner_of_row (row : gmap string sql_value) : option Runner :=
  index ← row !! "Id" ≫= sql_integer;
  category ← row !! "Category" ≫= sql_text;
  rang ← row !! "Rang" ≫= sql_text;
  fullname ← row !! "Fullname" ≫= sql_text;
  age_year ← row !! "Age_year" ≫= sql_integer;
  location ← row !! "Location" ≫= sql_text;
  time ← row !! "total_time" ≫= sql_nullable_text;
  link ← row !! "run_link" ≫= sql_text;
  year ← row !! "run_year" ≫= sql_integer;
  Some {| Id := index; Category := category; Rang := rang; Fullname := fullname;
          Age_year := age_year; Location := location; total_time := time;
          run_link := link; run_year := year |}.

Definition read_sql_query (table_name : string) (db : database) : option (list Runner) :=
  rows ← db !! table_name;
  mapM runner_of_row rows.

End App.

Import Re Parser App.

(** * Facts about the engine *)
Section Engine.

Lemma strip_app t s s' : strip t s = Some s' -> s = t ++ s'.
Proof.
  revert s. induction t as [|a t IH]; intros [|b s]; simpl; try congruence.
  destruct (Ascii.eqb a b) eqn:E; [|discriminate].
  apply Ascii.eqb_eq in E. subst b. intros H. f_equal. auto.
Qed.

Lemma app_strip t s : strip t (t ++ s) = Some s.
Proof. induction t as [|a t IH]; simpl; [done|]. by rewrite Ascii.eqb_refl. Qed.

Lemma rep_sound p lo hi greedy k res s : forall n,
  within hi n ->
  rep p lo hi greedy n s k = Some res ->
  exists w s', s = w ++ s' /\ Forall (fun c => p c = true) w /\
               (lo <= n + length w)%nat /\ within hi (n + length w) /\ k s' = Some res.
Proof.
  induction s as [|c s IH]; intros n Hn H.
  - exists [], []. simpl in *. rewrite Nat.add_0_r.
    destruct greedy; destruct (lo <=? n)%nat eqn:E; try discriminate;
      apply Nat.leb_le in E; repeat split; auto;
      destruct (k []); congruence.
  - assert (Hstop : (if (lo <=? n)%nat then k (c :: s) else None) = Some res ->
      exists w s', c :: s = w ++ s' /\ Forall (fun c => p c = true) w /\
               (lo <= n + length w)%nat /\ within hi (n + length w) /\ k s' = Some res).
    { destruct (lo <=? n)%nat eqn:E; [|discriminate]. apply Nat.leb_le in E.
      intros Hk. exists [], (c :: s). simpl. rewrite Nat.add_0_r. auto. }
    assert (Hmore : (if p c && below hi n then rep p lo hi greedy (S n) s k else None) = Some res ->
      exists w s', c :: s = w ++ s' /\ Forall (fun c => p c = true) w /\
               (lo <= n + length w)%nat /\ within hi (n + length w) /\ k s' = Some res).
    { destruct (p c) eqn:Hp; [|discriminate]. destruct (below hi n) eqn:Hb; [|discriminate].
      simpl. intros Hr. apply IH in Hr as (w & s' & -> & Hw & Hlo & Hhi & Hk).
      - exists (c :: w), s'. simpl. rewrite Nat.add_succ_r. auto.
      - destruct hi as [h|]; simpl in *; [|done]. apply Nat.ltb_lt in Hb. lia. }
    simpl in H. destruct greedy.
    + destruct (if p c && below hi n then rep p lo hi true (S n) s k else None) eqn:E.
      * apply Hmore. congruence.
      * apply Hstop. exact H.
    + destruct (if (lo <=? n)%nat then k (c :: s) else None) eqn:E.
      * apply Hstop. congruence.
      * apply Hmore. exact H.
Qed.

Lemma run_sound r : forall s g k res,
  run r s g k = Some res ->
  exists s' g', matches r s s' g g' /\ k s' g' = Some res.
Proof.
  induction r as [t|p lo hi greedy|r1 IH1 r2 IH2|r1 IH1 r2 IH2|r1 IH1|name r1 IH1];
    intros s g k res H; simpl in H.
  - destruct (strip _ s) as [s'|] eqn:E; [|discriminate].
    apply strip_app in E. subst s. exists s', g. split; [constructor|done].
  - apply rep_sound in H as (w & s' & -> & Hw & Hlo & Hhi & Hk).
    + exists s', g. split; [|done]. by constructor.
    + destruct hi; simpl; lia.
  - apply IH1 in H as (s1 & g1 & H1 & H). apply IH2 in H as (s2 & g2 & H2 & H).
    exists s2, g2. split; [|done]. econstructor; eauto.
  - destruct (run r1 s g k) eqn:E.
    + inversion H; subst. apply IH1 in E as (s' & g' & H1 & Hk).
      exists s', g'. split; [by apply matches_alt_l|done].
    + apply IH2 in H as (s' & g' & H1 & Hk).
      exists s', g'. split; [by apply matches_alt_r|done].
  - destruct (run r1 s g k) eqn:E.
    + inversion H; subst. apply IH1 in E as (s' & g' & H1 & Hk).
      exists s', g'. split; [by apply matches_opt_some|done].
    + exists s, g. split; [apply matches_opt_none|done].
  - apply IH1 in H as (s' & g' & H1 & Hk).
    eexists s', _. split; [by apply matches_group|done].
Qed.

Lemma matches_suffix r s s' g g' : matches r s s' g g' -> exists w, s = w ++ s'.
Proof.
  induction 1; eauto.
  - destruct IHmatches1 as [w1 ->], IHmatches2 as [w2 ->].
    exists (w1 ++ w2). by rewrite <- app_assoc.
  - by exists [].
Qed.

Lemma consumed_app (w s : list ascii) : consumed (w ++ s) s = w.
Proof.
  unfold consumed. rewrite length_app.
  replace (length w + length s - length s)%nat with (length w) by lia.
  by rewrite take_app_length.
Qed.

End Engine.

Ltac inv_matches :=
  repeat match goal with
  | H : matches (Cat _ _) _ _ _ _ |- _ => inversion H; subst; clear H
  | H : matches (Group _ _) _ _ _ _ |- _ => inversion H; subst; clear H
  | H : matches (Alt _ _) _ _ _ _ |- _ => inversion H; subst; clear H
  | H : matches (Opt _) _ _ _ _ |- _ => inversion H; subst; clear H
  | H : matches (Rep _ _ _ _) _ _ _ _ |- _ => inversion H; subst; clear H
  | H : matches (Lit _) _ _ _ _ |- _ => inversion H; subst; clear H
  end.

Lemma forallb_Forall_true (p : charset) w :
  Forall (fun c => p c = true) w -> forallb p w = true.
Proof. induction 1; simpl; [done|]. by rewrite H, IHForall. Qed.

Lemma rank_ok_digits w :
  (1 <= length w)%nat -> Forall (fun c => is_digit c = true) w ->
  rank_ok (string_of_list_ascii w) = true.
Proof.
  intros Hlen Hw. unfold rank_ok, all_digits.
  rewrite list_ascii_of_string_of_list_ascii, (forallb_Forall_true _ _ Hw).
  destruct w; simpl in *; [lia|done].
Qed.

Lemma birth_year_ok_digits w :
  (4 <= length w)%nat -> (length w <= 4)%nat -> Forall (fun c => is_digit c = true) w ->
  birth_year_ok (string_of_list_ascii w) = true.
Proof.
  intros H1 H2 Hw. unfold birth_year_ok.
  rewrite list_ascii_of_string_of_list_ascii, (forallb_Forall_true _ _ Hw).
  do 5 (destruct w as [|? w]; simpl in *; try lia).
Qed.

Lemma birth_year_ok_unknown w :
  (4 <= length w)%nat -> (length w <= 4)%nat ->
  Forall (fun c => is_chr "?"%char c = true) w ->
  birth_year_ok (string_of_list_ascii w) = true.
Proof.
  intros H1 H2 Hw.
  do 5 (destruct w as [|? w]; simpl in *; try lia).
  repeat match goal with
  | H : Forall _ (_ :: _) |- _ => inversion H; subst; clear H
  | H : is_chr _ _ = true |- _ => apply Ascii.eqb_eq in H; subst
  end. done.
Qed.

Lemma runner_match_groups line g :
  re_match runner_pattern line = Some g ->
  exists category rang fullname age_year location,
    group g "Category" = Some category /\ group g "Rang" = Some rang /\
    group g "Fullname" = Some fullname /\ group g "Age_year" = Some age_year /\
    group g "Location" = Some location /\
    rank_ok rang = true /\ birth_year_ok age_year = true.
Proof.
  unfold re_match. intros H. apply run_sound in H as (s' & g' & H & Hk).
  injection Hk as ->.
  cbv [runner_pattern cat plus lazy_plus lazy_star exactly one] in H.
  inv_matches; rewrite ?consumed_app;
    (do 5 eexists; split_and!;
     [ reflexivity | reflexivity | reflexivity | reflexivity | reflexivity
     | first [ by apply rank_ok_digits | reflexivity ]
     | first [ by apply birth_year_ok_digits | by apply birth_year_ok_unknown ] ]).
Qed.


(** * The extractor *)
Section Extractor.

Lemma groupdict_lookup g name :
  name ∈ group_names runner_pattern ->
  groupdict runner_pattern g !! name = Some (from_option VStr VNone (group g name)).
Proof.
  intros Hin. vm_compute in Hin.
  repeat (apply elem_of_cons in Hin as [->|Hin]; [reflexivity|]).
  by apply elem_of_nil in Hin.
Qed.

Lemma scrape_runner_nomatch url year df runner :
  re_match runner_pattern runner = None -> scrape_runner url year df runner = Ok df.
Proof. intros H. unfold scrape_runner, match_groupdict. by rewrite H. Qed.

Lemma scrape_runner_match url year df runner g :
  re_match runner_pattern runner = Some g ->
  exists category rang fullname age_year location,
    group g "Category" = Some category /\ group g "Rang" = Some rang /\
    group g "Fullname" = Some fullname /\ group g "Age_year" = Some age_year /\
    group g "Location" = Some location /\
    rank_ok rang = true /\ birth_year_ok age_year = true /\
    scrape_runner url year df runner =
      Ok (concat_row (raw_record category rang fullname age_year location
                                 (group g "total_time") url year) df).
Proof.
  intros H.
  destruct (runner_match_groups _ _ H)
    as (category & rang & fullname & age_year & location & Hc & Hr & Hf & Ha & Hl & Hrk & Hby).
  exists category, rang, fullname, age_year, location. split_and!; try done.
  unfold scrape_runner, match_groupdict. rewrite H. simpl.
  unfold new_row, getitem.
  rewrite !groupdict_lookup by (vm_compute; set_solver).
  rewrite Hc, Hr, Hf, Ha, Hl. reflexivity.
Qed.

Lemma scrape_runner_groups url year df runner g category rang fullname age_year location :
  re_match runner_pattern runner = Some g ->
  group g "Category" = Some category -> group g "Rang" = Some rang ->
  group g "Fullname" = Some fullname -> group g "Age_year" = Some age_year ->
  group g "Location" = Some location ->
  scrape_runner url year df runner =
    Ok (concat_row (raw_record category rang fullname age_year location
                               (group g "total_time") url year) df).
Proof.
  intros H Hc Hr Hf Ha Hl.
  unfold scrape_runner, match_groupdict. rewrite H. simpl.
  unfold new_row, getitem.
  rewrite !groupdict_lookup by (vm_compute; set_solver).
  rewrite Hc, Hr, Hf, Ha, Hl. reflexivity.
Qed.

Lemma scrape_runners_single url year df runner df' :
  scrape_runner url year df runner = Ok df' ->
  scrape_runners url year df [runner] = Ok df'.
Proof. simpl. by intros ->. Qed.

Lemma scrape_runners_app url year df before after :
  scrape_runners url year df (before ++ after) =
  df' ← scrape_runners url year df before; scrape_runners url year df' after.
Proof.
  revert df. induction before as [|r before IH]; intros df; simpl; [done|].
  destruct (scrape_runner url year df r) as [df'|e]; simpl; [apply IH|done].
Qed.

(** C1. Every line either yields a record whose eight fields are all
    populated from the one match (the optional time as text or None) and
    which is put on top of the frame, or does not match and leaves the frame
    as it was; the loop over the lines never raises, and a line that does not
    match leaves no trace in its result. *)
Theorem extract_complete_or_skipped url year df :
  (forall runner,
     (re_match runner_pattern runner = None /\
      scrape_runner url year df runner = Ok df)
     \/
     (exists g category rang fullname age_year location,
        re_match runner_pattern runner = Some g /\
        group g "Category" = Some category /\ group g "Rang" = Some rang /\
        group g "Fullname" = Some fullname /\ group g "Age_year" = Some age_year /\
        group g "Location" = Some location /\
        scrape_runner url year df runner =
          Ok (concat_row (raw_record category rang fullname age_year location
                                     (group g "total_time") url year) df)))
  /\ (forall runners, exists df', scrape_runners url year df runners = Ok df')
  /\ (forall before runner after,
        re_match runner_pattern runner = None ->
        scrape_runners url year df (before ++ runner :: after) =
        scrape_runners url year df (before ++ after)).
Proof.
  split_and!.
  - intros runner. destruct (re_match runner_pattern runner) as [g|] eqn:E.
    + right. destruct (scrape_runner_match url year df runner g E)
        as (c & r & f & a & l & ? & ? & ? & ? & ? & _ & _ & ?).
      by exists g, c, r, f, a, l.
    + left. split; [done|]. by apply scrape_runner_nomatch.
  - intros runners. revert df. induction runners as [|r rs IH]; intros df; simpl.
    + by exists df.
    + destruct (re_match runner_pattern r) as [g|] eqn:E.
      * destruct (scrape_runner_match url year df r g E)
          as (c & k & f & a & l & _ & _ & _ & _ & _ & _ & _ & ->).
        simpl. apply IH.
      * rewrite (scrape_runner_nomatch _ _ _ _ E). simpl. apply IH.
  - intros before runner after E. rewrite !scrape_runners_app.
    destruct (scrape_runners url year df before) as [df'|e]; simpl; [|done].
    by rewrite (scrape_runner_nomatch _ _ _ _ E).
Qed.

End Extractor.



(** * The cleaning pass *)
Section Cleaning.

Implicit Types df st out : gmap string (list value).

Lemma clean_inv df out st :
  clean_runners_data df = (Ok out, st) ->
  exists age_year run_year age_year' run_year',
    df !! "Age_year" = Some age_year /\ df !! "run_year" = Some run_year /\
    astype_Int64 (to_numeric age_year) = Ok age_year' /\
    astype_Int64 run_year = Ok run_year' /\
    st = <["age" := sub_Int64 run_year' age_year']>
           (<["run_year" := run_year']> (<["Age_year" := age_year']> df)) /\
    out = delete "age" (select (keep_mask (sub_Int64 run_year' age_year')) st).
Proof.
  unfold clean_runners_data, mbind, prog_bind, mret, prog_ret, getcol, setcol, lift, this.
  destruct (df !! "Age_year") as [ay|] eqn:Hay; [|discriminate].
  rewrite lookup_insert_eq.
  destruct (astype_Int64 (to_numeric ay)) as [ay'|] eqn:Hay'; [|discriminate].
  rewrite lookup_insert_ne, lookup_insert_ne by done.
  destruct (df !! "run_year") as [ry|] eqn:Hry; [|discriminate].
  destruct (astype_Int64 ry) as [ry'|] eqn:Hry'; [|discriminate].
  rewrite lookup_insert_eq, lookup_insert_ne, lookup_insert_eq by done.
  rewrite lookup_insert_eq.
  unfold drop_column, select. rewrite lookup_fmap, lookup_insert_eq. simpl.
  intros [= <- <-]. exists ay, ry, ay', ry'.
  rewrite !insert_insert_eq. done.
Qed.

Lemma clean_run df age_year run_year age_year' run_year' :
  df !! "Age_year" = Some age_year -> df !! "run_year" = Some run_year ->
  astype_Int64 (to_numeric age_year) = Ok age_year' ->
  astype_Int64 run_year = Ok run_year' ->
  let st := <["age" := sub_Int64 run_year' age_year']>
              (<["run_year" := run_year']> (<["Age_year" := age_year']> df)) in
  clean_runners_data df =
    (Ok (delete "age" (select (keep_mask (sub_Int64 run_year' age_year')) st)), st).
Proof.
  intros Hay Hry Hay' Hry' st. subst st.
  unfold clean_runners_data, mbind, prog_bind, mret, prog_ret, getcol, setcol, lift, this.
  rewrite Hay, lookup_insert_eq, Hay'.
  rewrite lookup_insert_ne, lookup_insert_ne by done. rewrite Hry, Hry'.
  rewrite lookup_insert_eq, lookup_insert_ne, lookup_insert_eq by done.
  rewrite lookup_insert_eq.
  unfold drop_column, select. rewrite lookup_fmap, lookup_insert_eq. simpl.
  by rewrite !insert_insert_eq.
Qed.

Lemma is_digit_val c : is_digit c = true -> 0 <= digit_val c <= 9.
Proof.
  unfold is_digit, digit_val. intros [H1 H2]%andb_true_iff.
  apply Nat.leb_le in H1, H2. lia.
Qed.

(** The numeric reading of a matched birth year: four digits give a number
    between 0 and 9999, the placeholder gives a missing value. *)
Lemma to_numeric_birth_year s :
  birth_year_ok s = true ->
  (s = "????" /\ to_numeric_cell (VStr s) = VNA) \/
  (exists b, to_numeric_cell (VStr s) = VInt b /\ 0 <= b <= 9999).
Proof.
  unfold birth_year_ok. intros [H| ->%String.eqb_eq]%orb_true_iff; [|by left].
  right. apply andb_true_iff in H as [Hlen Hd]. apply Nat.eqb_eq in Hlen.
  do 5 (destruct s as [|? s]; simpl in Hlen; try lia).
  simpl in Hd. repeat (apply andb_true_iff in Hd as [?%is_digit_val Hd]).
  unfold to_numeric_cell, all_digits. simpl.
  repeat match goal with
  | H : 0 <= digit_val ?c <= 9 |- context [is_digit ?c] =>
      let E := fresh in
      assert (E : is_digit c = true) by
        (unfold is_digit, digit_val in *;
         apply andb_true_iff; split; apply Nat.leb_le; lia);
      rewrite E; clear E
  end.
  simpl. eexists. split; [reflexivity|]. unfold decimal. simpl. lia.
Qed.

Lemma raw_birth_year_cell v :
  raw_birth_year v = true ->
  astype_Int64_cell (to_numeric_cell v) = Ok (to_numeric_cell v) /\
  (to_numeric_cell v = VNA \/ exists b, to_numeric_cell v = VInt b /\ 0 <= b <= 9999).
Proof.
  destruct v as [s| | |]; try discriminate. simpl raw_birth_year. intros H.
  destruct (to_numeric_birth_year s H) as [[_ ->]|(b & -> & Hb)].
  - split; [done|by left].
  - split; [|right; eauto]. simpl. unfold in_int64, int64_min, int64_max.
    replace ((- 2 ^ 63 <=? b) && (b <=? 2 ^ 63 - 1)) with true; [done|].
    symmetry. apply andb_true_iff. split; apply Z.leb_le; lia.
Qed.

Lemma raw_event_year_cell v :
  raw_event_year v = true ->
  exists e, v = VInt e /\ in_int64 e = true /\ astype_Int64_cell v = Ok v.
Proof.
  destruct v as [|e| |]; try discriminate. simpl. intros H.
  exists e. by rewrite H.
Qed.

Lemma astype_raw_birth col :
  forallb raw_birth_year col = true ->
  astype_Int64 (to_numeric col) = Ok (to_numeric col).
Proof.
  induction col as [|v col IH]; simpl; [done|].
  intros [Hv Hc]%andb_true_iff. destruct (raw_birth_year_cell v Hv) as [-> _].
  simpl. fold (to_numeric col). by rewrite (IH Hc).
Qed.

Lemma astype_raw_event col :
  forallb raw_event_year col = true -> astype_Int64 col = Ok col.
Proof.
  induction col as [|v col IH]; simpl; [done|].
  intros [Hv Hc]%andb_true_iff.
  destruct (raw_event_year_cell v Hv) as (e & -> & He & ->). simpl.
  by rewrite (IH Hc).
Qed.

Lemma raw_frame_inv df :
  raw_frame df = true ->
  exists age_year run_year,
    df !! "Age_year" = Some age_year /\ df !! "run_year" = Some run_year /\
    forallb raw_birth_year age_year = true /\
    forallb raw_event_year run_year = true /\
    length run_year = length age_year.
Proof.
  unfold raw_frame. destruct (df !! "Age_year") as [ay|] eqn:Hay; [|discriminate].
  destruct (df !! "run_year") as [ry|] eqn:Hry; [|discriminate].
  intros [[Hcols Hb]%andb_true_iff He]%andb_true_iff.
  exists ay, ry. split_and!; try done.
  rewrite forallb_forall in Hcols. specialize (Hcols "run_year").
  unfold has_column in Hcols. rewrite Hry in Hcols.
  apply Nat.eqb_eq, Hcols. vm_compute. tauto.
Qed.

(** On a frame of RawRecords the pass returns, and this is what it returns
    and what it leaves in the caller's frame. *)
Lemma clean_raw df :
  raw_frame df = true ->
  exists age_year run_year,
    df !! "Age_year" = Some age_year /\ df !! "run_year" = Some run_year /\
    forallb raw_birth_year age_year = true /\
    forallb raw_event_year run_year = true /\
    length run_year = length age_year /\
    let age := sub_Int64 run_year (to_numeric age_year) in
    let st := <["age" := age]> (<["run_year" := run_year]>
                (<["Age_year" := to_numeric age_year]> df)) in
    clean_runners_data df = (Ok (delete "age" (select (keep_mask age) st)), st).
Proof.
  intros H. destruct (raw_frame_inv df H) as (ay & ry & Hay & Hry & Hb & He & Hlen).
  exists ay, ry. split_and!; try done.
  apply (clean_run df ay ry); auto using astype_raw_birth, astype_raw_event.
Qed.

Lemma clean_columns df age_year run_year :
  df !! "Age_year" = Some age_year -> df !! "run_year" = Some run_year ->
  forallb raw_birth_year age_year = true ->
  forallb raw_event_year run_year = true ->
  let age := sub_Int64 run_year (to_numeric age_year) in
  let st := <["age" := age]> (<["run_year" := run_year]>
              (<["Age_year" := to_numeric age_year]> df)) in
  clean_runners_data df = (Ok (delete "age" (select (keep_mask age) st)), st).
Proof.
  intros Hay Hry Hb He.
  apply (clean_run df age_year run_year); auto using astype_raw_birth, astype_raw_event.
Qed.

End Cleaning.


(** * Ranks *)
Section Ranks.

Lemma rep_greedy_max p lo (k : list ascii -> option caps) res s w : forall n,
  Forall (fun c => p c = true) w ->
  (lo <= n + length w)%nat ->
  match s with c :: _ => p c = false | [] => True end ->
  k s = Some res ->
  rep p lo None true n (w ++ s) k = Some res.
Proof.
  induction w as [|a w IH]; intros n Hw Hlo Hs Hk; simpl.
  - rewrite Nat.add_0_r in Hlo. apply Nat.leb_le in Hlo.
    destruct s as [|c s]; simpl; rewrite ?Hs, Hlo; simpl; by rewrite Hk.
  - inversion Hw as [|? ? Ha Hw']; subst. rewrite Ha. simpl.
    rewrite (IH (S n)); simpl in *; [done|done|lia|done|done].
Qed.

Lemma list_ascii_of_string_app a b :
  list_ascii_of_string (a +:+ b) = list_ascii_of_string a ++ list_ascii_of_string b.
Proof. induction a as [|c a IH]; simpl; [done|]. by rewrite IH. Qed.

Lemma forallb_Forall_charset (p : charset) w :
  forallb p w = true -> Forall (fun c => p c = true) w.
Proof.
  induction w as [|c w IH]; simpl; [constructor|].
  intros [? ?]%andb_true_iff. constructor; auto.
Qed.

Lemma orelse_first {A} (a b : option A) r :
  a = Some r -> match a with Some x => Some x | None => b end = Some r.
Proof. by intros ->. Qed.

Lemma after_rank_run w period :
  run after_rank (ranked_tail period)
      [("Rang", w); ("Category", list_ascii_of_string "M40")]
      (fun _ g => Some g) = Some (ranked_captures w).
Proof. destruct period; vm_compute; reflexivity. Qed.

Lemma ranked_line_digits w period :
  w <> [] -> Forall (fun c => is_digit c = true) w ->
  re_match runner_pattern (ranked_line (string_of_list_ascii w) period)
    = Some (ranked_captures w).
Proof.
  intros Hne Hw. unfold re_match, ranked_line.
  rewrite !list_ascii_of_string_app, list_ascii_of_string_of_list_ascii.
  fold (ranked_tail period).
  assert (Htail : match ranked_tail period with
                  | c :: _ => is_digit c = false | [] => True end)
    by (by destruct period).
  generalize (after_rank_run w period).
  generalize dependent (ranked_tail period). intros tail Htail Hrest.
  cbv [runner_pattern cat plus]. fold after_rank. cbn [run].
  apply (rep_greedy_max _ _ _ _ (" "%char :: (w ++ tail))
                        (list_ascii_of_string "M40"));
    [by repeat constructor|simpl; lia|done|].
  cbn beta.
  apply (rep_greedy_max _ _ _ _ (w ++ tail) [" "%char]);
    [by repeat constructor|simpl; lia| |].
  { destruct w as [|c w]; [done|]. simpl. inversion Hw; subst.
    unfold space, is_chr. destruct (Ascii.eqb_spec c " "%char); [subst; done|done]. }
  cbn beta. apply orelse_first.
  apply (rep_greedy_max _ _ _ _ tail w 0 Hw); [destruct w; simpl; [done|lia]|done|].
  cbn beta. rewrite (consumed_app w tail).
  replace (consumed (list_ascii_of_string "M40 " ++ w ++ tail) (" "%char :: w ++ tail))
    with (list_ascii_of_string "M40")
    by (symmetry; apply (consumed_app (list_ascii_of_string "M40") (" "%char :: w ++ tail))).
  exact Hrest.
Qed.

Lemma ranked_line_accepted rang period :
  rank_ok rang = true ->
  exists g, re_match runner_pattern (ranked_line rang period) = Some g
            /\ group g "Rang" = Some rang.
Proof.
  unfold rank_ok. rewrite !orb_true_iff, !String.eqb_eq.
  intros [[[Hd| ->]| ->]| ->].
  - unfold all_digits in Hd. apply andb_true_iff in Hd as [Hne Hd].
    exists (ranked_captures (list_ascii_of_string rang)). split.
    + rewrite <- (string_of_list_ascii_of_string rang) at 1.
      apply ranked_line_digits; [by destruct rang|by apply forallb_Forall_charset].
    + simpl. unfold group. simpl. by rewrite string_of_list_ascii_of_string.
  - exists (ranked_captures (list_ascii_of_string "DNF")).
    by destruct period; vm_compute.
  - exists (ranked_captures (list_ascii_of_string "DSQ")).
    by destruct period; vm_compute.
  - exists (ranked_captures (list_ascii_of_string "OUT")).
    by destruct period; vm_compute.
Qed.

End Ranks.


(** * What the cleaning pass keeps *)
Section Normalizer.

Implicit Types df st out : gmap string (list value).

Example sample_frame_columns :
  map_to_list sample_frame =
    [ ("Category", [VStr "W20"; VStr "M40"]);
      ("Age_year", [VStr "????"; VStr "1980"]);
      ("Fullname", [VStr "Ann Muster"; VStr "Jane Doe"]);
      ("run_year", [VInt 2020; VInt 2020]);
      ("run_link", [VStr "alfaa.htm"; VStr "alfaa.htm"]);
      ("Rang", [VStr "DNF"; VStr "123"]);
      ("Location", [VStr "Bern"; VStr "Zurich"]);
      ("total_time", [VNone; VStr "3:45:10"]) ].
Proof. vm_compute. reflexivity. Qed.

Lemma keep_mask_map age : keep_mask age = List.map keep_cell age.
Proof. unfold keep_mask. induction age as [|v age IH]; simpl; [done|]. by rewrite IH. Qed.

Lemma wrap64_small z : int64_min <= z <= int64_max -> wrap64 z = z.
Proof.
  unfold wrap64, int64_min, int64_max. intros H.
  rewrite Z.mod_small; lia.
Qed.

Lemma in_int64_range z : in_int64 z = true -> int64_min <= z <= int64_max.
Proof. unfold in_int64. intros [?%Z.leb_le ?%Z.leb_le]%andb_true_iff. lia. Qed.

Lemma kept_rows_valid age_year : forall run_year,
  forallb raw_birth_year age_year = true ->
  forallb raw_event_year run_year = true ->
  let mask := keep_mask (sub_Int64 run_year (to_numeric age_year)) in
  Forall2 valid_row (pick mask (to_numeric age_year)) (pick mask run_year).
Proof.
  intros ry Hb He. cbv zeta. rewrite keep_mask_map. unfold sub_Int64, to_numeric.
  revert ry Hb He.
  induction age_year as [|a ay IH]; intros [|r ry] Hb He;
    try (cbn; by constructor).
  cbn [forallb] in Hb, He.
  apply andb_true_iff in Hb as [Ha Hb]. apply andb_true_iff in He as [Hr He].
  specialize (IH ry Hb He).
  destruct (raw_event_year_cell r Hr) as (e & -> & Hin & _).
  cbn [List.map zip_with pick].
  destruct (raw_birth_year_cell a Ha) as [_ [->|(b & -> & Hrange)]];
    cbn [sub_cell keep_cell notna_cell gt0_cell and_cell selects from_option id];
    [exact IH|].
  destruct (0 <? wrap64 (e - b)) eqn:E; [|exact IH].
  constructor; [|exact IH]. apply Z.ltb_lt in E.
  exists b, e. split_and!; try done.
  intros Hlow. apply in_int64_range in Hin.
  rewrite wrap64_small in E; unfold int64_min, int64_max in *; lia.
Qed.

(** C2. On every frame of RawRecords the cleaning pass returns, and in the
    frame it returns every row has an integer birth year and an integer event
    year (no missing value) and a strictly positive age, the age being the
    64-bit difference of the two, which is the plain difference for every event
    year not within 9999 of the smallest 64-bit integer.  The returned columns
    are the input columns (the birth year read as a number) restricted by one
    row mask: rows are removed, no cell is replaced. *)
Theorem cleaned_rows_have_positive_age df :
  raw_frame df = true ->
  exists out st age_year run_year,
    clean_runners_data df = (Ok out, st) /\
    df !! "Age_year" = Some age_year /\ df !! "run_year" = Some run_year /\
    let mask := keep_mask (sub_Int64 run_year (to_numeric age_year)) in
    out !! "Age_year" = Some (pick mask (to_numeric age_year)) /\
    out !! "run_year" = Some (pick mask run_year) /\
    Forall2 valid_row (pick mask (to_numeric age_year)) (pick mask run_year) /\
    out !! "age" = None /\
    forall c, c <> "age" -> c <> "Age_year" -> out !! c = pick mask <$> df !! c.
Proof.
  intros H. destruct (clean_raw df H) as (ay & ry & Hay & Hry & Hb & He & Hlen & Hclean).
  simpl in Hclean. eexists _, _, ay, ry.
  split; [exact Hclean|]. split; [done|]. split; [done|]. cbv zeta. split_and!.
  - unfold select. rewrite lookup_delete_ne, lookup_fmap by done.
    rewrite lookup_insert_ne, lookup_insert_ne, lookup_insert_eq by done. done.
  - unfold select. rewrite lookup_delete_ne, lookup_fmap by done.
    rewrite lookup_insert_ne, lookup_insert_eq by done. done.
  - by apply kept_rows_valid.
  - by rewrite lookup_delete_eq.
  - intros c Hc1 Hc2. unfold select. rewrite lookup_delete_ne, lookup_fmap by done.
    rewrite lookup_insert_ne by done.
    destruct (decide (c = "run_year")) as [->|Hc3].
    + by rewrite lookup_insert_eq, Hry.
    + by rewrite !lookup_insert_ne by done.
Qed.

Lemma cleaned_rows_have_positive_age_witness :
  raw_frame sample_frame = true /\
  exists out st age_year run_year,
    clean_runners_data sample_frame = (Ok out, st) /\
    sample_frame !! "Age_year" = Some age_year /\
    sample_frame !! "run_year" = Some run_year /\
    let mask := keep_mask (sub_Int64 run_year (to_numeric age_year)) in
    out !! "Age_year" = Some (pick mask (to_numeric age_year)) /\
    out !! "run_year" = Some (pick mask run_year) /\
    Forall2 valid_row (pick mask (to_numeric age_year)) (pick mask run_year) /\
    out !! "age" = None /\
    forall c, c <> "age" -> c <> "Age_year" ->
              out !! c = pick mask <$> sample_frame !! c.
Proof.
  split; [reflexivity|].
  apply (cleaned_rows_have_positive_age sample_frame). reflexivity.
Defined.

End Normalizer.


(** * Rows with an unknown birth year *)
Section UnknownBirthYear.

Implicit Types df st out : gmap string (list value).

Lemma lookup_map {A B} (f : A -> B) (l : list A) i :
  List.map f l !! i = f <$> l !! i.
Proof. revert i. induction l as [|x l IH]; intros [|i]; simpl; auto. Qed.

Lemma map_delete {A B} (f : A -> B) (l : list A) i :
  List.map f (delete i l) = delete i (List.map f l).
Proof. revert i. induction l as [|x l IH]; intros [|i]; simpl; auto. by rewrite IH. Qed.

Lemma zip_with_delete {A B C} (f : A -> B -> C) (a : list A) : forall (b : list B) i,
  zip_with f (delete i a) (delete i b) = delete i (zip_with f a b).
Proof.
  induction a as [|x a IH]; intros [|y b] [|i]; simpl; try done.
  - by destruct a.
  - by rewrite IH.
Qed.

Lemma forallb_delete {A} (p : A -> bool) (l : list A) i :
  forallb p l = true -> forallb p (delete i l) = true.
Proof.
  revert i. induction l as [|x l IH]; intros [|i]; simpl; auto.
  - by intros [_ ?]%andb_true_iff.
  - intros [-> ?]%andb_true_iff. simpl. auto.
Qed.

Lemma pick_delete {A} (mask : list bool) : forall (col : list A) i,
  mask !! i = Some false -> pick (delete i mask) (delete i col) = pick mask col.
Proof.
  induction mask as [|b mask IH]; intros [|v col] [|i] H; simpl in *; try done.
  - by destruct mask.
  - by injection H as ->.
  - by rewrite (IH col i H).
Qed.

(** C4. In a frame of RawRecords, a row whose birth year is the placeholder
    "????" gets a missing birth year in the coerced column (not zero) and a
    missing age, its mask entry is false, and the frame returned is the one
    the pass returns for the input without that row. *)
Theorem unknown_birth_year_dropped df age_year i :
  raw_frame df = true ->
  df !! "Age_year" = Some age_year ->
  age_year !! i = Some (VStr "????") ->
  exists out st coerced age,
    clean_runners_data df = (Ok out, st) /\
    st !! "Age_year" = Some coerced /\ coerced !! i = Some VNA /\
    st !! "age" = Some age /\ age !! i = Some VNA /\
    keep_mask age !! i = Some false /\
    out = delete "age" (select (keep_mask age) st) /\
    fst (clean_runners_data (delete i <$> df)) = Ok out.
Proof.
  intros Hraw Hay Hi.
  destruct (clean_raw df Hraw) as (ay & ry & Hay' & Hry & Hb & He & Hlen & Hclean).
  rewrite Hay in Hay'. injection Hay' as <-. cbv zeta in Hclean.
  set (age := sub_Int64 ry (to_numeric age_year)) in *.
  assert (Hage : age !! i = Some VNA).
  { subst age. unfold sub_Int64, to_numeric. rewrite lookup_zip_with, lookup_map, Hi.
    destruct (lookup_lt_is_Some_2 ry i) as [r Hr].
    { rewrite Hlen. by apply lookup_lt_Some in Hi. }
    rewrite Hr. simpl. by destruct r. }
  assert (Hmask : keep_mask age !! i = Some false).
  { by rewrite keep_mask_map, lookup_map, Hage. }
  eexists _, _, (to_numeric age_year), age.
  split; [exact Hclean|]. split_and!.
  - by rewrite lookup_insert_ne, lookup_insert_ne, lookup_insert_eq.
  - unfold to_numeric. by rewrite lookup_map, Hi.
  - by rewrite lookup_insert_eq.
  - done.
  - done.
  - done.
  - rewrite (clean_run (delete i <$> df) (delete i age_year) (delete i ry)
               (to_numeric (delete i age_year)) (delete i ry)).
    + simpl. f_equal. f_equal.
      unfold to_numeric, sub_Int64. rewrite map_delete, zip_with_delete.
      fold (to_numeric age_year). fold (sub_Int64 ry (to_numeric age_year)). fold age.
      rewrite <- !fmap_insert. unfold select.
      rewrite keep_mask_map, map_delete, <- keep_mask_map.
      rewrite <- map_fmap_compose. apply map_fmap_ext.
      intros c col _. simpl. by apply pick_delete.
    + by rewrite lookup_fmap, Hay.
    + by rewrite lookup_fmap, Hry.
    + apply astype_raw_birth. by apply forallb_delete.
    + apply astype_raw_event. by apply forallb_delete.
Qed.

Lemma unknown_birth_year_dropped_witness :
  raw_frame sample_frame = true /\
  sample_frame !! "Age_year" = Some [VStr "????"; VStr "1980"] /\
  [VStr "????"; VStr "1980"] !! 0%nat = Some (VStr "????") /\
  exists out st coerced age,
    clean_runners_data sample_frame = (Ok out, st) /\
    st !! "Age_year" = Some coerced /\ coerced !! 0%nat = Some VNA /\
    st !! "age" = Some age /\ age !! 0%nat = Some VNA /\
    keep_mask age !! 0%nat = Some false /\
    out = delete "age" (select (keep_mask age) st) /\
    fst (clean_runners_data (delete 0%nat <$> sample_frame)) = Ok out.
Proof.
  split; [reflexivity|]. split; [reflexivity|]. split; [reflexivity|].
  apply (unknown_birth_year_dropped sample_frame [VStr "????"; VStr "1980"] 0);
    reflexivity.
Defined.

End UnknownBirthYear.


(** * The caller's frame and the derived columns *)
Section Frames.

Implicit Types df st out : gmap string (list value).
Implicit Types tdf : gmap string (dtype * list value).

#[local] Arguments cells : simpl never.

Lemma to_numeric_int64 col :
  forallb raw_birth_year col = true ->
  Forall (fun v => int64_cell v = true) (to_numeric col).
Proof.
  induction col as [|v col IH]; simpl; [constructor|].
  intros [Hv Hc]%andb_true_iff. constructor; [|by apply IH].
  destruct (raw_birth_year_cell v Hv) as [_ [->|(b & -> & Hb)]]; simpl; [done|].
  unfold in_int64, int64_min, int64_max.
  apply andb_true_iff. split; apply Z.leb_le; lia.
Qed.

Lemma raw_event_int64 col :
  forallb raw_event_year col = true -> Forall (fun v => int64_cell v = true) col.
Proof.
  induction col as [|v col IH]; simpl; [constructor|].
  intros [Hv Hc]%andb_true_iff. constructor; [|by apply IH].
  by destruct (raw_event_year_cell v Hv) as (e & -> & He & _).
Qed.

Lemma to_numeric_changes col :
  forallb raw_birth_year col = true -> col <> [] -> to_numeric col <> col.
Proof.
  destruct col as [|v col]; [done|]. simpl. intros [Hv _]%andb_true_iff _.
  destruct v as [s| | |]; try discriminate.
  intros [= Heq _]. simpl in Heq. by destruct (all_digits s).
Qed.

Lemma cells_insert tdf c (col : dtype * list value) :
  cells (<[c := col]> tdf) = <[c := snd col]> (cells tdf).
Proof. unfold cells. by rewrite fmap_insert. Qed.

Lemma cells_lookup tdf c : cells tdf !! c = snd <$> tdf !! c.
Proof. unfold cells. by rewrite lookup_fmap. Qed.

Lemma cells_select mask tdf : cells (select_typed mask tdf) = select mask (cells tdf).
Proof.
  unfold cells, select_typed, select. rewrite <- !map_fmap_compose.
  by apply map_fmap_ext.
Qed.

Lemma cells_delete tdf c : cells (delete c tdf) = delete c (cells tdf).
Proof. unfold cells. by rewrite fmap_delete. Qed.

Lemma clean_typed_run tdf d_age d_run age_year run_year age_year' run_year' :
  tdf !! "Age_year" = Some (d_age, age_year) ->
  tdf !! "run_year" = Some (d_run, run_year) ->
  astype_Int64 (to_numeric age_year) = Ok age_year' ->
  astype_Int64 run_year = Ok run_year' ->
  let st := <["age" := (Int64, sub_Int64 run_year' age_year')]>
              (<["run_year" := (Int64, run_year')]>
                 (<["Age_year" := (Int64, age_year')]> tdf)) in
  clean_runners_data_typed tdf =
    (Ok (delete "age" (select_typed (keep_mask (sub_Int64 run_year' age_year')) st)), st).
Proof.
  intros Hay Hry Hay' Hry' st. subst st.
  unfold clean_runners_data_typed, mbind, tprog_bind, mret, tprog_ret,
    typed_getcol, typed_setcol, typed_lift, typed_this.
  rewrite Hay, lookup_insert_eq. unfold astype_Int64_series. simpl. rewrite Hay'. simpl.
  rewrite lookup_insert_ne, lookup_insert_ne by done. rewrite Hry. simpl. rewrite Hry'. simpl.
  rewrite lookup_insert_eq, lookup_insert_ne, lookup_insert_eq by done.
  rewrite lookup_insert_eq. simpl.
  unfold drop_typed_column, select_typed. rewrite lookup_fmap, lookup_insert_eq. simpl.
  by rewrite !insert_insert_eq.
Qed.

(** Forgetting the dtypes turns the typed pass into [clean_runners_data]. *)
Lemma clean_typed_cells tdf :
  clean_runners_data (cells tdf) = forget (clean_runners_data_typed tdf).
Proof.
  destruct (tdf !! "Age_year") as [[d ay]|] eqn:Hay;
    [destruct (astype_Int64 (to_numeric ay)) as [ay'|] eqn:Hay';
     [destruct (tdf !! "run_year") as [[d' ry]|] eqn:Hry;
      [destruct (astype_Int64 ry) as [ry'|] eqn:Hry'|]|]|].
  1:{ rewrite (clean_typed_run tdf d d' ay ry ay' ry') by done.
      rewrite (clean_run (cells tdf) ay ry ay' ry'); try done;
        [|by rewrite cells_lookup, Hay|by rewrite cells_lookup, Hry].
      unfold forget. cbn [fst snd].
      by rewrite cells_delete, cells_select, !cells_insert. }
  all: unfold forget, clean_runners_data, clean_runners_data_typed, mbind, prog_bind,
         tprog_bind, mret, prog_ret, tprog_ret, getcol, setcol, lift, this,
         typed_getcol, typed_setcol, typed_lift, typed_this, astype_Int64_series,
         to_numeric_series;
       repeat first
         [ rewrite lookup_insert_eq
         | rewrite lookup_insert_ne by done
         | rewrite cells_lookup
         | rewrite Hay | rewrite Hay' | rewrite Hry | rewrite Hry'
         | progress simpl ].
  all: by rewrite ?insert_insert_eq, ?cells_insert.
Qed.


(** C10. After the call on a frame of RawRecords, the frame object that was
    passed in holds the birth-year column coerced to nullable integers (its
    cells are the 64-bit numeric readings, its dtype is Int64 and no longer
    object), the event-year column converted to the nullable dtype Int64
    (from int64 or object, with the same integers), and the new age column;
    its other columns and all its rows are as before.  So the caller's frame
    is not what was passed: both columns differ from the ones passed, and the
    cells differ too whenever there is a row.  The returned frame alone is
    restricted to the kept rows and lacks the age column.  With the dtypes
    forgotten this is the run of [clean_runners_data]. *)
Theorem caller_frame_is_coerced tdf :
  typed_raw_frame tdf = true ->
  exists (out st : TypedFrame) age_year run_year d_run,
    clean_runners_data_typed tdf = (Ok out, st) /\
    clean_runners_data (cells tdf) = (Ok (cells out), cells st) /\
    tdf !! "Age_year" = Some (object_, age_year) /\
    tdf !! "run_year" = Some (d_run, run_year) /\ d_run <> Int64 /\
    st !! "Age_year" = Some (Int64, to_numeric age_year) /\
    Forall (fun v => int64_cell v = true) (to_numeric age_year) /\
    length (to_numeric age_year) = length age_year /\
    st !! "run_year" = Some (Int64, run_year) /\
    Forall (fun v => int64_cell v = true) run_year /\
    st !! "age" = Some (Int64, sub_Int64 run_year (to_numeric age_year)) /\
    (forall c, c <> "Age_year" -> c <> "run_year" -> c <> "age" -> st !! c = tdf !! c) /\
    st !! "Age_year" <> tdf !! "Age_year" /\
    st !! "run_year" <> tdf !! "run_year" /\
    (age_year <> [] -> cells st <> cells tdf) /\
    out = delete "age"
            (select_typed (keep_mask (sub_Int64 run_year (to_numeric age_year))) st) /\
    out !! "age" = None.
Proof.
  unfold typed_raw_frame, dtype_of.
  intros [[Hraw Hd1]%andb_true_iff Hd2]%andb_true_iff.
  destruct (raw_frame_inv (cells tdf) Hraw) as (ay & ry & Hay & Hry & Hb & He & Hlen).
  rewrite cells_lookup in Hay, Hry.
  destruct (tdf !! "Age_year") as [[d1 ay0]|] eqn:Hay0; [|done].
  destruct (tdf !! "run_year") as [[d2 ry0]|] eqn:Hry0; [|done].
  simpl in Hay, Hry, Hd1, Hd2. injection Hay as ->. injection Hry as ->.
  assert (d1 = object_) as -> by (by destruct d1).
  assert (Hd : d2 <> Int64) by (by destruct d2).
  pose proof (clean_typed_run tdf object_ d2 ay ry _ _ Hay0 Hry0
                (astype_raw_birth ay Hb) (astype_raw_event ry He)) as Hrun.
  cbv zeta in Hrun.
  eexists _, _, ay, ry, d2. split; [exact Hrun|].
  split; [by rewrite clean_typed_cells, Hrun|].
  split_and!; try done.
  - by rewrite lookup_insert_ne, lookup_insert_ne, lookup_insert_eq.
  - by apply to_numeric_int64.
  - unfold to_numeric. by rewrite length_map.
  - by rewrite lookup_insert_ne, lookup_insert_eq.
  - by apply raw_event_int64.
  - by rewrite lookup_insert_eq.
  - intros c H1 H2 H3. by rewrite !lookup_insert_ne.
  - rewrite lookup_insert_ne, lookup_insert_ne, lookup_insert_eq by done.
    intros H; discriminate H.
  - rewrite lookup_insert_ne, lookup_insert_eq by done. intros H. apply Hd. congruence.
  - intros Hne Heq.
    assert (H : cells tdf !! "Age_year" = Some (to_numeric ay)).
    { rewrite <- Heq at 1. rewrite !cells_insert.
      by rewrite lookup_insert_ne, lookup_insert_ne, lookup_insert_eq. }
    rewrite cells_lookup, Hay0 in H. injection H as H. symmetry in H.
    by apply (to_numeric_changes ay Hb Hne).
  - by rewrite lookup_delete_eq.
Qed.

Lemma caller_frame_is_coerced_witness :
  typed_raw_frame sample_typed_frame = true /\
  exists (out st : TypedFrame) age_year run_year d_run,
    clean_runners_data_typed sample_typed_frame = (Ok out, st) /\
    clean_runners_data (cells sample_typed_frame) = (Ok (cells out), cells st) /\
    sample_typed_frame !! "Age_year" = Some (object_, age_year) /\
    sample_typed_frame !! "run_year" = Some (d_run, run_year) /\ d_run <> Int64 /\
    st !! "Age_year" = Some (Int64, to_numeric age_year) /\
    Forall (fun v => int64_cell v = true) (to_numeric age_year) /\
    length (to_numeric age_year) = length age_year /\
    st !! "run_year" = Some (Int64, run_year) /\
    Forall (fun v => int64_cell v = true) run_year /\
    st !! "age" = Some (Int64, sub_Int64 run_year (to_numeric age_year)) /\
    (forall c, c <> "Age_year" -> c <> "run_year" -> c <> "age" ->
               st !! c = sample_typed_frame !! c) /\
    st !! "Age_year" <> sample_typed_frame !! "Age_year" /\
    st !! "run_year" <> sample_typed_frame !! "run_year" /\
    (age_year <> [] -> cells st <> cells sample_typed_frame) /\
    out = delete "age"
            (select_typed (keep_mask (sub_Int64 run_year (to_numeric age_year))) st) /\
    out !! "age" = None.
Proof.
  split; [reflexivity|].
  apply (caller_frame_is_coerced sample_typed_frame). reflexivity.
Defined.

(** C9, as the claim has it, fails: the frame the pass returns for the sample
    frame keeps the row of 1980 and has neither an age nor an age-group
    column. *)
Lemma cleaned_frame_lacks_derived_columns :
  exists out st,
    clean_runners_data sample_frame = (Ok out, st) /\
    out !! "Age_year" = Some [VInt 1980] /\
    out !! "run_year" = Some [VInt 2020] /\
    out !! "age" = None /\
    out !! "age_group" = None.
Proof.
  eexists _, _. split.
  - apply (clean_columns sample_frame [VStr "????"; VStr "1980"] [VInt 2020; VInt 2020]);
      by vm_compute.
  - by vm_compute.
Qed.

(** C9, amended. The cleaning pass uses the age only to select rows: the
    frame it returns has the columns of its input and no age column, hence no
    derived field.  Age and age group are attached when the dashboard loads
    the stored table: every row read gets age = run_year - Age_year (64-bit)
    and age_group = set_age_group(age). *)
Theorem derived_fields_attached_at_load df table :
  raw_frame df = true ->
  (exists out st,
     clean_runners_data df = (Ok out, st) /\
     dom out = dom df ∖ {["age"]} /\
     out !! "age" = None /\
     (df !! "age_group" = None -> out !! "age_group" = None))
  /\ List.map runner (App.df table) = table
  /\ Forall (fun a => age a = wrap64 (run_year (runner a) - Age_year (runner a))
                      /\ age_group a = set_age_group (age a)) (App.df table).
Proof.
  intros Hraw. split_and!.
  - destruct (clean_raw df Hraw) as (ay & ry & Hay & Hry & Hb & He & Hlen & Hclean).
    cbv zeta in Hclean. eexists _, _. split; [exact Hclean|].
    assert (Hdom : dom (delete "age" (select (keep_mask (sub_Int64 ry (to_numeric ay)))
              (<["age":=sub_Int64 ry (to_numeric ay)]>
                 (<["run_year":=ry]> (<["Age_year":=to_numeric ay]> df)))))
            = dom df ∖ {["age"]}).
    { unfold select. rewrite dom_delete_L, dom_fmap_L, !dom_insert_L.
      assert ("Age_year" ∈ dom df) by (apply elem_of_dom; eauto).
      assert ("run_year" ∈ dom df) by (apply elem_of_dom; eauto).
      set_solver. }
    split_and!; [exact Hdom|by rewrite lookup_delete_eq|].
    intros Hnone. apply not_elem_of_dom. rewrite Hdom.
    apply not_elem_of_dom in Hnone. set_solver.
  - unfold App.df. rewrite List.map_map. simpl. apply List.map_id.
  - unfold App.df. apply Forall_forall. intros a Ha.
    apply list_elem_of_In, in_map_iff in Ha as (r & <- & _). done.
Qed.

Lemma derived_fields_attached_at_load_witness :
  raw_frame sample_frame = true /\
  ((exists out st,
     clean_runners_data sample_frame = (Ok out, st) /\
     dom out = dom sample_frame ∖ {["age"]} /\
     out !! "age" = None /\
     (sample_frame !! "age_group" = None -> out !! "age_group" = None))
  /\ List.map runner (App.df sample_table) = sample_table
  /\ Forall (fun a => age a = wrap64 (run_year (runner a) - Age_year (runner a))
                      /\ age_group a = set_age_group (age a)) (App.df sample_table)).
Proof.
  split; [reflexivity|].
  apply (derived_fields_attached_at_load sample_frame sample_table). reflexivity.
Defined.

End Frames.


(** * Ranks and the scenario line *)
Section Scenarios.

Implicit Types df st out : gmap string (list value).

Lemma rank_has_no_period rang :
  rank_ok rang = true -> ~ In "."%char (list_ascii_of_string rang).
Proof.
  unfold rank_ok. rewrite !orb_true_iff, !String.eqb_eq.
  intros [[[Hd| ->]| ->]| ->]; try (simpl; intuition discriminate).
  unfold all_digits in Hd. apply andb_true_iff in Hd as [_ Hd].
  rewrite forallb_forall in Hd. intros Hin. by specialize (Hd _ Hin).
Qed.

Lemma clean_ignores_rank df v out st :
  clean_runners_data df = (Ok out, st) ->
  exists out',
    fst (clean_runners_data (<["Rang" := v]> df)) = Ok out' /\
    forall c, c <> "Rang" -> out' !! c = out !! c.
Proof.
  intros H. apply clean_inv in H as (ay & ry & ay' & ry' & Hay & Hry & Hay' & Hry' & -> & ->).
  rewrite (clean_run (<["Rang" := v]> df) ay ry ay' ry');
    [|by rewrite lookup_insert_ne|by rewrite lookup_insert_ne|done|done].
  eexists. split; [reflexivity|]. intros c Hc. unfold select.
  destruct (decide (c = "age")) as [->|Hage]; [by rewrite !lookup_delete_eq|].
  rewrite !lookup_delete_ne, !lookup_fmap by done. f_equal.
  rewrite !(lookup_insert_ne _ "age") by done.
  destruct (decide (c = "run_year")) as [->|?]; [by rewrite !lookup_insert_eq|].
  rewrite !(lookup_insert_ne _ "run_year") by done.
  destruct (decide (c = "Age_year")) as [->|?]; [by rewrite !lookup_insert_eq|].
  rewrite !(lookup_insert_ne _ "Age_year") by done.
  by rewrite lookup_insert_ne.
Qed.

(** C8. Whenever a line is extracted its rank is one or more digits or one
    of DNF, DSQ, OUT, so it never holds the period; every such token, with or
    without a period after it, is accepted in a sample line and stored as it
    is.  The cleaning pass does not look at the rank: replacing the rank
    column changes no other column of its result, and the sample line with
    rank "DNF." comes out of scraping and cleaning as a row with rank DNF. *)
Theorem rank_tokens_accepted_and_opaque :
  (forall line g,
     re_match runner_pattern line = Some g ->
     exists rang, group g "Rang" = Some rang /\ rank_ok rang = true /\
                  ~ In "."%char (list_ascii_of_string rang))
  /\ (forall rang period,
        rank_ok rang = true ->
        exists g, re_match runner_pattern (ranked_line rang period) = Some g /\
                  group g "Rang" = Some rang)
  /\ (forall df v out st,
        clean_runners_data df = (Ok out, st) ->
        exists out',
          fst (clean_runners_data (<["Rang" := v]> df)) = Ok out' /\
          forall c, c <> "Rang" -> out' !! c = out !! c)
  /\ (exists df out st,
        scrape_runners "alfaa.htm" 2020 empty_frame [ranked_line "DNF" true] = Ok df /\
        clean_runners_data df = (Ok out, st) /\
        out !! "Rang" = Some [VStr "DNF"] /\
        out !! "Age_year" = Some [VInt 1980] /\
        out !! "run_year" = Some [VInt 2020]).
Proof.
  split_and!.
  - intros line g H.
    destruct (runner_match_groups line g H) as (_ & rang & _ & _ & _ & _ & Hr & _ & _ & _ & Hok & _).
    exists rang. split_and!; [done|done|by apply rank_has_no_period].
  - apply ranked_line_accepted.
  - apply clean_ignores_rank.
  - eexists _, _, _. split; [|split].
    + apply scrape_runners_single.
      apply (scrape_runner_groups "alfaa.htm" 2020 empty_frame (ranked_line "DNF" true)
               (ranked_captures (list_ascii_of_string "DNF"))
               "M40" "DNF" "Jane Doe" "1980" "Zurich"); by vm_compute.
    + apply (clean_columns _ [VStr "1980"] [VInt 2020]); by vm_compute.
    + by vm_compute.
Qed.

(** C7, as the claim has it, fails: the scenario line does not match the
    pattern, so no record is extracted from it. *)
Lemma scenario_line_is_skipped :
  re_match runner_pattern scenario_line = None /\
  match_groupdict scenario_line = Raise AttributeError /\
  scrape_runner "alfaa.htm" 2020 empty_frame scenario_line = Ok empty_frame.
Proof.
  assert (H : re_match runner_pattern scenario_line = None) by (by vm_compute).
  split_and!; [done|by vm_compute|by apply scrape_runner_nomatch].
Qed.

(** C7, amended. The scenario line is not extracted: after the time the
    pattern wants one more token, then blanks, then the parenthesised number.
    With such a token the line yields the record of the scenario, which the
    cleaning pass keeps with age 40 and which the dashboard puts in age group
    "30-40". *)
Theorem scenario_with_token_extracted :
  re_match runner_pattern scenario_line = None
  /\ forall url,
       let record := raw_record "M40" "123" "Jane Doe" "1980" "Zurich"
                                (Some "3:45:10") url 2020 in
       scrape_runner url 2020 empty_frame scenario_line_with_token
         = Ok (concat_row record empty_frame)
       /\ exists out st,
            clean_runners_data (concat_row record empty_frame) = (Ok out, st) /\
            st !! "age" = Some [VInt 40] /\
            stored_table out =
              Some [ {| Id := 0; Category := "M40"; Rang := "123";
                        Fullname := "Jane Doe"; Age_year := 1980;
                        Location := "Zurich"; total_time := Some "3:45:10";
                        run_link := url; run_year := 2020 |} ] /\
            App.df [ {| Id := 0; Category := "M40"; Rang := "123";
                        Fullname := "Jane Doe"; Age_year := 1980;
                        Location := "Zurich"; total_time := Some "3:45:10";
                        run_link := url; run_year := 2020 |} ]
              = [ {| runner := {| Id := 0; Category := "M40"; Rang := "123";
                                  Fullname := "Jane Doe"; Age_year := 1980;
                                  Location := "Zurich"; total_time := Some "3:45:10";
                                  run_link := url; run_year := 2020 |};
                     age := 40; age_group := "30-40" |} ].
Proof.
  split; [by vm_compute|]. intros url record. subst record. split.
  - apply (scrape_runner_groups url 2020 empty_frame scenario_line_with_token
             (ranked_captures (list_ascii_of_string "123"))); by vm_compute.
  - eexists _, _. split.
    + apply (clean_columns _ [VStr "1980"] [VInt 2020]); by vm_compute.
    + split_and!; by vm_compute.
Qed.

End Scenarios.


(** * The dashboard *)
Section AgeGroups.

(** C3. The classifier is total on the integers and returns one of the five
    labels, the one whose interval (closed above, open below) holds the age;
    zero and negative ages fall in "0-20". *)
Theorem set_age_group_buckets :
  (forall age,
     (age <= 20 /\ set_age_group age = "0-20") \/
     (20 < age <= 30 /\ set_age_group age = "20-30") \/
     (30 < age <= 40 /\ set_age_group age = "30-40") \/
     (40 < age <= 50 /\ set_age_group age = "40-50") \/
     (50 < age /\ set_age_group age = "50+"))
  /\ (forall age, set_age_group age ∈ ["0-20"; "20-30"; "30-40"; "40-50"; "50+"])
  /\ set_age_group 20 = "0-20" /\ set_age_group 21 = "20-30"
  /\ set_age_group 50 = "40-50" /\ set_age_group 51 = "50+"
  /\ set_age_group 0 = "0-20" /\ set_age_group (-7) = "0-20".
Proof.
  assert (H : forall age,
     (age <= 20 /\ set_age_group age = "0-20") \/
     (20 < age <= 30 /\ set_age_group age = "20-30") \/
     (30 < age <= 40 /\ set_age_group age = "30-40") \/
     (40 < age <= 50 /\ set_age_group age = "40-50") \/
     (50 < age /\ set_age_group age = "50+")).
  { intros age. unfold set_age_group.
    destruct (age <=? 20) eqn:E1; [left; split; [lia|done]|].
    destruct (20 <? age) eqn:E2; [|lia].
    destruct (age <=? 30) eqn:E3; simpl; [right; left; split; [lia|done]|].
    destruct (30 <? age) eqn:E4; [|lia].
    destruct (age <=? 40) eqn:E5; simpl; [right; right; left; split; [lia|done]|].
    destruct (40 <? age) eqn:E6; [|lia].
    destruct (age <=? 50) eqn:E7; simpl; [right; right; right; left; split; [lia|done]|].
    right; right; right; right. split; [lia|done]. }
  split_and!; try done.
  intros age. destruct (H age) as [[_ ->]|[[_ ->]|[[_ ->]|[[_ ->]|[_ ->]]]]];
    repeat first [apply list_elem_of_here | apply list_elem_of_further].
Qed.

End AgeGroups.

Section KeyOrder.

Lemma ascii_compare_trans a b c :
  Ascii.compare a b = Lt -> Ascii.compare b c = Lt -> Ascii.compare a c = Lt.
Proof. unfold Ascii.compare. rewrite !N.compare_lt_iff. lia. Qed.

Lemma ascii_compare_refl a : Ascii.compare a a = Eq.
Proof. unfold Ascii.compare. apply N.compare_refl. Qed.

Lemma string_compare_refl a : String.compare a a = Eq.
Proof. induction a as [|x a IH]; simpl; [done|]. by rewrite ascii_compare_refl. Qed.

Lemma string_compare_trans a : forall b c,
  String.compare a b = Lt -> String.compare b c = Lt -> String.compare a c = Lt.
Proof.
  induction a as [|x a IH]; intros [|y b] [|z c]; simpl; try done.
  destruct (Ascii.compare x y) eqn:Exy; try done;
    destruct (Ascii.compare y z) eqn:Eyz; try done.
  - apply Ascii.compare_eq_iff in Exy, Eyz. subst.
    rewrite ascii_compare_refl. apply IH.
  - apply Ascii.compare_eq_iff in Exy. subst. by rewrite Eyz.
  - apply Ascii.compare_eq_iff in Eyz. subst. by rewrite Exy.
  - by rewrite (ascii_compare_trans _ _ _ Exy Eyz).
Qed.

Lemma key_compare_eq a b : key_compare a b = Eq -> a = b.
Proof.
  destruct a as [y1 g1], b as [y2 g2]. unfold key_compare. simpl.
  destruct (Z.compare y1 y2) eqn:E; try done.
  apply Z.compare_eq in E. intros ->%String.compare_eq_iff. by subst.
Qed.

Lemma key_compare_refl a : key_compare a a = Eq.
Proof.
  destruct a as [y g]. unfold key_compare. simpl. rewrite Z.compare_refl.
  apply string_compare_refl.
Qed.

Lemma key_compare_gt a b : key_compare a b = Gt -> key_lt b a.
Proof.
  destruct a as [y1 g1], b as [y2 g2]. unfold key_lt, key_compare. simpl.
  rewrite (Z.compare_antisym y1 y2), (String.compare_antisym g1 g2).
  destruct (Z.compare y1 y2); simpl; try done.
  by destruct (String.compare g2 g1).
Qed.

Lemma key_lt_trans a b c : key_lt a b -> key_lt b c -> key_lt a c.
Proof.
  destruct a as [y1 g1], b as [y2 g2], c as [y3 g3]. unfold key_lt, key_compare. simpl.
  destruct (Z.compare y1 y2) eqn:E12; try done;
    destruct (Z.compare y2 y3) eqn:E23; try done.
  - apply Z.compare_eq in E12, E23. subst. rewrite Z.compare_refl.
    apply string_compare_trans.
  - apply Z.compare_eq in E12. subst. by rewrite E23.
  - apply Z.compare_eq in E23. subst. by rewrite E12.
  - rewrite Z.compare_lt_iff in E12, E23.
    assert (E : Z.compare y1 y3 = Lt) by (apply Z.compare_lt_iff; lia). by rewrite E.
Qed.

Lemma key_lt_irrefl a : ~ key_lt a a.
Proof. unfold key_lt. by rewrite key_compare_refl. Qed.

End KeyOrder.


(** * Grouping and filtering *)
Section Grouping.

Lemma new_group_key k :
  group_key {| g_run_year := fst k; g_age_group := snd k; Count_athletes := 1 |} = k.
Proof. by destruct k. Qed.

Lemma tally_sum (q : key -> bool) k groups :
  sum_counts (List.filter (fun g => q (group_key g)) (tally k groups)) =
  sum_counts (List.filter (fun g => q (group_key g)) groups) + (if q k then 1 else 0).
Proof.
  induction groups as [|g rest IH]; cbn [tally List.filter].
  - rewrite new_group_key. destruct (q k); unfold sum_counts; simpl; lia.
  - change (g_run_year g, g_age_group g) with (group_key g).
    destruct (key_compare k (group_key g)) eqn:E; cbn [List.filter].
    + apply key_compare_eq in E. subst k.
      change (group_key {| g_run_year := g_run_year g; g_age_group := g_age_group g;
                           Count_athletes := Count_athletes g + 1 |})
        with (group_key g).
      destruct (q (group_key g)); unfold sum_counts; simpl; lia.
    + rewrite new_group_key.
      destruct (q k), (q (group_key g)); unfold sum_counts; simpl; lia.
    + destruct (q (group_key g)); unfold sum_counts in *; simpl; rewrite IH; lia.
Qed.

Lemma groupby_sum (q : key -> bool) keys : forall groups,
  sum_counts (List.filter (fun g => q (group_key g))
                          (fold_left (fun groups k => tally k groups) keys groups)) =
  sum_counts (List.filter (fun g => q (group_key g)) groups)
  + Z.of_nat (length (List.filter q keys)).
Proof.
  induction keys as [|k keys IH]; intros groups; simpl; [lia|].
  rewrite IH, tally_sum. destruct (q k); simpl length; lia.
Qed.

Lemma tally_keys k groups x :
  In x (List.map group_key (tally k groups)) ->
  x = k \/ In x (List.map group_key groups).
Proof.
  induction groups as [|g rest IH]; cbn [tally List.map In].
  - rewrite new_group_key. intuition.
  - change (g_run_year g, g_age_group g) with (group_key g).
    destruct (key_compare k (group_key g)) eqn:E; cbn [List.map In].
    + change (group_key {| g_run_year := g_run_year g; g_age_group := g_age_group g;
                           Count_athletes := Count_athletes g + 1 |})
        with (group_key g). intuition.
    + rewrite new_group_key. intuition.
    + intuition.
Qed.

Lemma tally_sorted k groups :
  StronglySorted key_lt (List.map group_key groups) ->
  StronglySorted key_lt (List.map group_key (tally k groups)).
Proof.
  induction groups as [|g rest IH]; cbn [tally List.map]; intros Hs.
  - rewrite new_group_key. repeat constructor.
  - apply StronglySorted_inv in Hs as [Hrest Hall].
    change (g_run_year g, g_age_group g) with (group_key g).
    destruct (key_compare k (group_key g)) eqn:E; cbn [List.map].
    + change (group_key {| g_run_year := g_run_year g; g_age_group := g_age_group g;
                           Count_athletes := Count_athletes g + 1 |})
        with (group_key g). by constructor.
    + rewrite new_group_key. constructor; [by constructor|].
      constructor; [exact E|].
      eapply Forall_impl; [exact Hall|]. intros x Hx. by eapply key_lt_trans.
    + constructor; [by apply IH|].
      apply Forall_forall. intros x Hx%list_elem_of_In%tally_keys.
      destruct Hx as [->|Hx]; [by apply key_compare_gt|].
      rewrite Forall_forall in Hall. by apply Hall, list_elem_of_In.
Qed.

Lemma groupby_sorted keys : forall groups,
  StronglySorted key_lt (List.map group_key groups) ->
  StronglySorted key_lt
    (List.map group_key (fold_left (fun groups k => tally k groups) keys groups)).
Proof.
  induction keys as [|k keys IH]; intros groups Hs; simpl; [done|].
  by apply IH, tally_sorted.
Qed.

Lemma sorted_keys_NoDup (l : list key) : StronglySorted key_lt l -> List.NoDup l.
Proof.
  induction 1 as [|k l Hs IH Hall]; constructor; [|done].
  intros Hin. rewrite Forall_forall in Hall.
  by apply (key_lt_irrefl k), Hall, list_elem_of_In.
Qed.

Lemma filter_true {A} (l : list A) : List.filter (fun _ => true) l = l.
Proof. induction l as [|x l IH]; simpl; [done|]. by rewrite IH. Qed.

Lemma filter_twice {A} (p q : A -> bool) (l : list A) :
  List.filter q (List.filter p l) = List.filter (fun x => p x && q x) l.
Proof.
  induction l as [|x l IH]; simpl; [done|].
  destruct (p x); simpl; [destruct (q x)|]; by rewrite IH.
Qed.

Lemma filter_map_length {A B} (f : A -> B) (q : B -> bool) (l : list A) :
  length (List.filter q (List.map f l)) = length (List.filter (fun x => q (f x)) l).
Proof.
  induction l as [|x l IH]; simpl; [done|]. destruct (q (f x)); simpl; by rewrite IH.
Qed.

Lemma filter_unique_key (groups : list GroupRow) g :
  List.NoDup (List.map group_key groups) -> In g groups ->
  List.filter (fun g' => bool_decide (group_key g' = group_key g)) groups = [g].
Proof.
  induction groups as [|h rest IH]; simpl; [done|].
  intros Hnd [->|Hin]; inversion Hnd as [|? ? Hnotin Hnd']; subst.
  - rewrite bool_decide_eq_true_2 by done. f_equal.
    clear IH Hnd Hnd'. induction rest as [|h rest IH]; simpl; [done|].
    simpl in Hnotin. rewrite bool_decide_eq_false_2 by intuition congruence.
    apply IH. intuition.
  - rewrite bool_decide_eq_false_2; [by apply IH|].
    intros Heq. apply Hnotin. rewrite Heq. by apply in_map.
Qed.

(** What [update_chart_and_table] returns, as two filters by one restriction
    on the grouping key. *)
Lemma update_chart_and_table_filters table years groups :
  update_chart_and_table table years groups =
    (List.filter (fun g => selected years groups (group_key g)) (df2 table),
     List.filter (fun a => selected years groups (athlete_key a)) (df table)).
Proof.
  unfold update_chart_and_table, selected.
  destruct (truthy years), (truthy groups); simpl;
    rewrite ?filter_twice, ?filter_true; f_equal;
    try (apply List.filter_ext; intros x; simpl; by rewrite ?andb_true_r).
Qed.

End Grouping.


(** * Counts and selections *)
Section Selections.

Lemma df2_sum (q : key -> bool) table :
  sum_counts (List.filter (fun g => q (group_key g)) (df2 table)) =
  Z.of_nat (length (List.filter (fun a => q (athlete_key a)) (df table))).
Proof.
  unfold df2, groupby_size. rewrite groupby_sum. simpl.
  by rewrite (filter_map_length athlete_key q).
Qed.

Lemma df2_sorted table : StronglySorted key_lt (List.map group_key (df2 table)).
Proof. unfold df2, groupby_size. apply groupby_sorted. constructor. Qed.

Lemma isin_In cell l : isin cell (Some l) = true <-> In cell l.
Proof.
  simpl. rewrite existsb_exists. split.
  - by intros (x & Hx & ->%String.eqb_eq).
  - intros H. exists cell. split; [done|]. apply String.eqb_refl.
Qed.

(** C5. For every table and every pair of selections the counts of the
    filtered aggregate add up to the number of filtered rows; without a
    selection (absent or empty) nothing is filtered, so the counts of all
    groups add up to the number of rows.  The groups come in key order with
    pairwise different keys, the count of a group is the number of rows with
    its key, and every row has its group: each row is counted once. *)
Theorem aggregate_counts_match_rows table years groups :
  sum_counts (fst (update_chart_and_table table years groups)) =
    Z.of_nat (length (snd (update_chart_and_table table years groups)))
  /\ update_chart_and_table table None None = (df2 table, df table)
  /\ update_chart_and_table table (Some []) (Some []) = (df2 table, df table)
  /\ sum_counts (df2 table) = Z.of_nat (length (df table))
  /\ StronglySorted key_lt (List.map group_key (df2 table))
  /\ List.NoDup (List.map group_key (df2 table))
  /\ (forall g, In g (df2 table) ->
        Count_athletes g =
        Z.of_nat (length (List.filter
                            (fun a => bool_decide (athlete_key a = group_key g))
                            (df table))))
  /\ (forall a, In a (df table) ->
        exists g, In g (df2 table) /\ group_key g = athlete_key a).
Proof.
  pose proof (df2_sorted table) as Hsorted.
  pose proof (sorted_keys_NoDup _ Hsorted) as Hnodup.
  split_and!; try done.
  - rewrite update_chart_and_table_filters. simpl. apply df2_sum.
  - pose proof (df2_sum (fun _ => true) table) as H.
    by rewrite !filter_true in H.
  - intros g Hg.
    pose proof (df2_sum (fun k => bool_decide (k = group_key g)) table) as H.
    cbv beta in H. rewrite <- H, (filter_unique_key _ g Hnodup Hg).
    unfold sum_counts. simpl. lia.
  - intros a Ha.
    pose proof (df2_sum (fun k => bool_decide (k = athlete_key a)) table) as H.
    cbv beta in H.
    destruct (List.filter (fun g => bool_decide (group_key g = athlete_key a)) (df2 table))
      as [|g rest] eqn:E.
    + exfalso. unfold sum_counts in H. simpl in H.
      assert (Hin : In a (List.filter (fun a0 => bool_decide (athlete_key a0 = athlete_key a))
                                      (df table))).
      { apply filter_In. split; [done|]. by apply bool_decide_eq_true_2. }
      destruct (List.filter _ (df table)); [done|]. simpl in H. lia.
    + assert (Hg : In g (List.filter (fun g => bool_decide (group_key g = athlete_key a))
                                     (df2 table))) by (rewrite E; by left).
      apply filter_In in Hg as [Hg Hk]. exists g. split; [done|].
      by apply bool_decide_eq_true_1 in Hk.
Qed.

(** C6. The table records and the chart rows returned are the rows whose
    year and age group pass the two selections.  A selection that is absent
    or empty lets every row pass; a non-empty one lets a row pass exactly when
    its value is equal, as a string, to one of the selected strings, the year
    being compared through its decimal numeral.  With no years and some
    groups selected the rows are restricted by group only. *)
Theorem selection_semantics table years groups :
  (forall a,
     In a (snd (update_chart_and_table table years groups)) <->
     In a (df table)
     /\ (truthy years = true -> isin (str (run_year (runner a))) years = true)
     /\ (truthy groups = true -> isin (age_group a) groups = true))
  /\ (forall g,
     In g (fst (update_chart_and_table table years groups)) <->
     In g (df2 table)
     /\ (truthy years = true -> isin (str (g_run_year g)) years = true)
     /\ (truthy groups = true -> isin (g_age_group g) groups = true))
  /\ truthy None = false /\ truthy (Some []) = false
  /\ (forall s l, truthy (Some (s :: l)) = true)
  /\ (forall cell l, isin cell (Some l) = true <-> In cell l)
  /\ (forall year l, isin (str year) (Some (List.map str l)) = true <-> In year l)
  /\ (truthy years = false ->
      truthy groups = false ->
      update_chart_and_table table years groups = (df2 table, df table))
  /\ (truthy years = false ->
      truthy groups = true ->
      update_chart_and_table table years groups =
        (List.filter (fun g => isin (g_age_group g) groups) (df2 table),
         List.filter (fun a => isin (age_group a) groups) (df table))).
Proof.
  split_and!; try done.
  - intros a. rewrite update_chart_and_table_filters. simpl.
    rewrite filter_In. unfold selected, athlete_key. simpl.
    rewrite andb_true_iff, !orb_true_iff, !negb_true_iff.
    destruct (truthy years), (truthy groups); intuition congruence.
  - intros g. rewrite update_chart_and_table_filters. simpl.
    rewrite filter_In. unfold selected, group_key. simpl.
    rewrite andb_true_iff, !orb_true_iff, !negb_true_iff.
    destruct (truthy years), (truthy groups); intuition congruence.
  - apply isin_In.
  - intros year l. rewrite isin_In, in_map_iff. split.
    + intros (y & Hy & Hin). unfold str in Hy. by apply (inj pretty) in Hy as ->.
    + intros Hin. by exists year.
  - intros Hy Hg. unfold update_chart_and_table. by rewrite Hy, Hg.
  - intros Hy Hg. unfold update_chart_and_table. by rewrite Hy, Hg.
Qed.

End Selections.


(** * The scraping loops *)
Section Scraping.

Implicit Types df : gmap string (list value).

Variable get : string -> fetch_error + string.
Variable runners_of : string -> list string.
Variable int : string -> result Z.
Hypothesis int_digits : forall s, all_digits s = true -> int s = Ok (decimal s).

Lemma record_of_None url y runner :
  re_match runner_pattern runner = None -> record_of url y runner = None.
Proof. unfold record_of. by intros ->. Qed.

Lemma record_of_raw url y runner r :
  in_int64 y = true -> record_of url y runner = Some r -> raw_row r.
Proof.
  intros Hy. unfold record_of.
  destruct (re_match runner_pattern runner) as [g|] eqn:E; [|done].
  destruct (runner_match_groups _ _ E)
    as (c & k & f & a & l & Hc & Hk & Hf & Ha & Hl & Hrk & Hby).
  simpl. rewrite Hc, Hk, Hf, Ha, Hl. simpl. intros [= <-].
  by exists c, k, f, a, l, (group g "total_time"), url, y.
Qed.

Lemma scrape_page_stack url year y df runners :
  int year = Ok y ->
  scrape_page int url year df runners = Ok (stack (omap (record_of url y) runners) df).
Proof.
  intros Hint. revert df. induction runners as [|runner rest IH]; intros df; simpl.
  - done.
  - unfold match_groupdict.
    destruct (re_match runner_pattern runner) as [g|] eqn:E.
    + destruct (runner_match_groups _ _ E)
        as (c & k & f & a & l & Hc & Hk & Hf & Ha & Hl & Hrk & Hby).
      unfold record_of. rewrite E. simpl. rewrite Hc, Hk, Hf, Ha, Hl. simpl.
      unfold new_row_of, getitem.
      rewrite !groupdict_lookup by (vm_compute; set_solver).
      rewrite Hc, Hk, Hf, Ha, Hl, Hint. simpl. apply IH.
    + rewrite (record_of_None _ _ _ E). simpl. apply IH.
Qed.

Lemma stack_app records1 records2 df :
  stack (records1 ++ records2) df = stack records2 (stack records1 df).
Proof. unfold stack. apply fold_left_app. Qed.

Lemma scrape_letters_stack year y ls : forall df,
  int year = Ok y ->
  scrape_letters get runners_of int year df ls =
    Ok (stack (concat (List.map (records_of_letter get runners_of year y) ls)) df).
Proof.
  induction ls as [|letter rest IH]; intros df Hint; simpl; [done|].
  unfold scrape_letter, records_of_letter at 1.
  destruct (get (url_of year letter)) as [e|page]; simpl.
  - by apply IH.
  - rewrite (scrape_page_stack _ _ y) by done. simpl.
    rewrite stack_app. by apply IH.
Qed.

Lemma scrape_years_stack years : forall df,
  Forall (fun year => all_digits year = true) years ->
  scrape_years get runners_of int df years =
    Ok (stack (concat (List.map (fun year =>
                 records_of_year get runners_of year (decimal year)) years)) df).
Proof.
  induction years as [|year rest IH]; intros df Hy; [done|].
  inversion Hy as [|? ? Hd Hrest]; subst. cbn [scrape_years].
  rewrite (scrape_letters_stack year (decimal year)) by auto.
  cbn [List.map concat]. rewrite stack_app.
  change (records_of_year get runners_of year (decimal year))
    with (concat (List.map (records_of_letter get runners_of year (decimal year)) letters)).
  by apply IH.
Qed.

Lemma raw_record_lookup category rang fullname age_year location total_time url year c :
  c ∈ columns ->
  is_Some (raw_record category rang fullname age_year location total_time url year !! c).
Proof.
  intros Hin. vm_compute in Hin.
  repeat (apply elem_of_cons in Hin as [->|Hin]; [by eexists|]).
  by apply elem_of_nil in Hin.
Qed.

Lemma concat_row_lookup (r : gmap string value) df c v col :
  r !! c = Some v -> df !! c = Some col -> concat_row r df !! c = Some (v :: col).
Proof. intros Hr Hdf. unfold concat_row. by rewrite map_lookup_zip_with, Hr, Hdf. Qed.

Lemma stack_lookup c records : forall df col,
  df !! c = Some col ->
  Forall (fun r : gmap string value => is_Some (r !! c)) records ->
  stack records df !! c = Some (rev (omap (fun r => r !! c) records) ++ col).
Proof.
  induction records as [|r rest IH]; intros df col Hdf Hall; simpl; [done|].
  inversion Hall as [|? ? [v Hv] Hrest]; subst. rewrite Hv. simpl.
  rewrite (IH _ (v :: col)) by (by apply concat_row_lookup || done).
  by rewrite <- app_assoc.
Qed.

Lemma has_column_concat (r : gmap string value) df n c :
  is_Some (r !! c) -> has_column df n c = true ->
  has_column (concat_row r df) (S n) c = true.
Proof.
  intros [v Hv]. unfold has_column.
  destruct (df !! c) as [col|] eqn:E; [|done].
  rewrite (concat_row_lookup r df c v col) by done. simpl. done.
Qed.

Lemma raw_frame_concat r df :
  raw_row r -> raw_frame df = true -> raw_frame (concat_row r df) = true.
Proof.
  intros (c & k & f & a & l & t & u & y & -> & _ & Ha & Hy). unfold raw_frame.
  destruct (df !! "Age_year") as [ay|] eqn:Hay; [|done].
  destruct (df !! "run_year") as [ry|] eqn:Hry; [|done].
  intros [[Hcols Hb]%andb_true_iff He]%andb_true_iff.
  rewrite (concat_row_lookup _ df "Age_year" (VStr a) ay) by done.
  rewrite (concat_row_lookup _ df "run_year" (VInt y) ry) by done.
  cbn [length forallb raw_birth_year raw_event_year]. rewrite Ha, Hy, Hb, He.
  rewrite !andb_true_r. apply forallb_forall. intros x Hx.
  apply has_column_concat.
  - apply raw_record_lookup. by apply list_elem_of_In.
  - rewrite forallb_forall in Hcols. by apply Hcols.
Qed.

Lemma raw_frame_stack records : forall df,
  Forall raw_row records -> raw_frame df = true -> raw_frame (stack records df) = true.
Proof.
  induction records as [|r rest IH]; intros df Hall Hdf; simpl; [done|].
  inversion Hall; subst. apply IH; [done|]. by apply raw_frame_concat.
Qed.

Lemma records_of_year_raw year y :
  in_int64 y = true -> Forall raw_row (records_of_year get runners_of year y).
Proof.
  intros Hy. unfold records_of_year. apply Forall_concat, Forall_forall.
  intros rs Hrs%list_elem_of_In%in_map_iff. destruct Hrs as (letter & <- & _).
  unfold records_of_letter. destruct (get (url_of year letter)); [constructor|].
  apply Forall_forall. intros r Hr%list_elem_of_omap.
  destruct Hr as (runner & _ & Hr). by eapply record_of_raw.
Qed.

Lemma record_of_columns url y runner r c :
  record_of url y runner = Some r -> c ∈ columns -> is_Some (r !! c).
Proof.
  unfold record_of.
  destruct (re_match runner_pattern runner) as [g|]; simpl; [|done].
  destruct (group g "Category"); simpl; [|done].
  destruct (group g "Rang"); simpl; [|done].
  destruct (group g "Fullname"); simpl; [|done].
  destruct (group g "Age_year"); simpl; [|done].
  destruct (group g "Location"); simpl; [|done].
  intros [= <-]. apply raw_record_lookup.
Qed.

Lemma records_of_year_columns year y c :
  c ∈ columns ->
  Forall (fun r : gmap string value => is_Some (r !! c))
         (records_of_year get runners_of year y).
Proof.
  intros Hc. unfold records_of_year. apply Forall_concat, Forall_forall.
  intros rs Hrs%list_elem_of_In%in_map_iff. destruct Hrs as (letter & <- & _).
  unfold records_of_letter. destruct (get (url_of year letter)); [constructor|].
  apply Forall_forall. intros r Hr%list_elem_of_omap.
  destruct Hr as (runner & _ & Hr). by eapply record_of_columns.
Qed.

(** X1. When the years are strings of digits, [scrape_runners_data] returns
    (it does not raise) the frame of the records of all matching lines of all
    pages that could be fetched, year by year and letter by letter, stacked so
    that the record extracted last is row 0: each of the eight columns is the
    reversed list of that field.  Pages that fail to load and lines that do
    not match contribute nothing. *)
Theorem scrape_runners_data_stacks_records years :
  Forall (fun year => all_digits year = true) years ->
  let records :=
    concat (List.map (fun year => records_of_year get runners_of year (decimal year))
                     years) in
  scrape_runners_data get runners_of int years = Ok (stack records empty_frame)
  /\ forall c, c ∈ columns ->
       stack records empty_frame !! c = Some (rev (omap (fun r => r !! c) records)).
Proof.
  intros Hy records. split.
  - unfold scrape_runners_data. by apply scrape_years_stack.
  - intros c Hc. rewrite (stack_lookup c records empty_frame []).
    + by rewrite app_nil_r.
    + vm_compute in Hc.
      repeat (apply elem_of_cons in Hc as [->|Hc]; [reflexivity|]).
      by apply elem_of_nil in Hc.
    + subst records. apply Forall_concat, Forall_forall.
      intros rs Hrs%list_elem_of_In%in_map_iff. destruct Hrs as (year & <- & _).
      by apply records_of_year_columns.
Qed.

(** X2. When the years are strings of digits whose values fit 64 bits, the
    frame [scrape_runners_data] returns is a frame of RawRecords whatever the
    pages hold, and [clean_runners_data] returns on it: the two steps of
    [main] never raise. *)
Theorem scrape_then_clean_returns years :
  Forall (fun year => all_digits year = true /\ in_int64 (decimal year) = true) years ->
  exists df out st,
    scrape_runners_data get runners_of int years = Ok df /\
    raw_frame df = true /\
    clean_runners_data df = (Ok out, st).
Proof.
  intros Hy.
  assert (Hd : Forall (fun year => all_digits year = true) years)
    by (eapply Forall_impl; [exact Hy|]; by intros ? [? _]).
  pose proof (scrape_years_stack years empty_frame Hd) as Hs.
  fold (scrape_runners_data get runners_of int years) in Hs.
  assert (Hraw : raw_frame (stack (concat (List.map (fun year =>
            records_of_year get runners_of year (decimal year)) years)) empty_frame) = true).
  { apply raw_frame_stack; [|reflexivity].
    apply Forall_concat, Forall_forall.
    intros rs Hrs%list_elem_of_In%in_map_iff. destruct Hrs as (year & <- & Hin).
    apply records_of_year_raw. rewrite Forall_forall in Hy.
    by apply Hy, list_elem_of_In. }
  destruct (clean_raw _ Hraw) as (ay & ry & _ & _ & _ & _ & _ & Hclean).
  eexists _, _, _. split; [exact Hs|]. split; [exact Hraw|exact Hclean].
Qed.

End Scraping.

Lemma scrape_runners_data_stacks_records_witness :
  (forall s, all_digits s = true -> int_of_digits s = Ok (decimal s)) /\
  Forall (fun year => all_digits year = true) main_years /\
  let records :=
    concat (List.map (fun year => records_of_year sample_get sample_runners_of
                                                  year (decimal year))
                     main_years) in
  scrape_runners_data sample_get sample_runners_of int_of_digits main_years
    = Ok (stack records empty_frame)
  /\ forall c, c ∈ columns ->
       stack records empty_frame !! c = Some (rev (omap (fun r => r !! c) records)).
Proof.
  split; [reflexivity|]. split; [repeat constructor|].
  apply (scrape_runners_data_stacks_records sample_get sample_runners_of int_of_digits);
    [reflexivity|repeat constructor].
Defined.

Lemma scrape_then_clean_returns_witness :
  (forall s, all_digits s = true -> int_of_digits s = Ok (decimal s)) /\
  Forall (fun year => all_digits year = true /\ in_int64 (decimal year) = true)
         main_years /\
  exists df out st,
    scrape_runners_data sample_get sample_runners_of int_of_digits main_years = Ok df /\
    raw_frame df = true /\
    clean_runners_data df = (Ok out, st).
Proof.
  split; [reflexivity|]. split; [repeat constructor|].
  apply (scrape_then_clean_returns sample_get sample_runners_of int_of_digits);
    [reflexivity|repeat constructor].
Defined.


(** * Which lines are extracted *)
Section Acceptance.

Lemma rep_complete p lo hi greedy (k : list ascii -> option caps) w s : forall n,
  Forall (fun c => p c = true) w ->
  (lo <= n + length w)%nat -> within hi (n + length w) ->
  is_Some (k s) ->
  is_Some (rep p lo hi greedy n (w ++ s) k).
Proof.
  induction w as [|c w IH]; intros n Hw Hlo Hhi Hk.
  - rewrite Nat.add_0_r in Hlo. apply Nat.leb_le in Hlo.
    simpl app. destruct s as [|c s]; simpl; rewrite Hlo; destruct greedy;
      repeat match goal with
      | |- context [match ?x with _ => _ end] => destruct x eqn:?
      end; by eauto.
  - inversion Hw as [|? ? Hc Hw']; subst.
    assert (Hb : below hi n = true).
    { destruct hi as [h|]; simpl in *; [|done]. apply Nat.ltb_lt. lia. }
    assert (Hmore : is_Some (rep p lo hi greedy (S n) (w ++ s) k)).
    { apply IH; simpl in *; [done|lia| |done].
      destruct hi; simpl in *; [lia|done]. }
    destruct Hmore as [res Hres].
    simpl. rewrite Hc, Hb, Hres. simpl.
    destruct greedy; [by eauto|].
    destruct (if (lo <=? n)%nat then k (c :: w ++ s) else None); by eauto.
Qed.

Lemma run_complete r s s' g g' :
  matches r s s' g g' ->
  forall k : cont, is_Some (k s' g') -> is_Some (run r s g k).
Proof.
  induction 1 as [t s g|p lo hi greedy w s g Hw Hlo Hhi|r1 r2 s s1 s2 g g1 g2 _ IH1 _ IH2
                 |r1 r2 s s' g g' _ IH|r1 r2 s s' g g' _ IH|r s s' g g' _ IH|r s g
                 |name r s s' g g' _ IH]; intros k Hk; simpl.
  - by rewrite app_strip.
  - by apply rep_complete.
  - apply IH1, IH2, Hk.
  - destruct (IH k Hk) as [res ->]. by eauto.
  - destruct (run r1 s g k); [by eauto|]. by apply IH.
  - destruct (IH k Hk) as [res ->]. by eauto.
  - destruct (run r s g k); by eauto.
  - by apply IH.
Qed.

Lemma matches_extend r s s' g g' t :
  matches r s s' g g' -> matches r (s ++ t) (s' ++ t) g g'.
Proof.
  induction 1 as [t0 s g|p lo hi greedy w s g Hw Hlo Hhi|r1 r2 s s1 s2 g g1 g2 _ IH1 _ IH2
                 |r1 r2 s s' g g' _ IH|r1 r2 s s' g g' _ IH|r s s' g g' _ IH|r s g
                 |name r s s' g g' Hm IH].
  - rewrite <- app_assoc. constructor.
  - rewrite <- app_assoc. by constructor.
  - by econstructor.
  - by apply matches_alt_l.
  - by apply matches_alt_r.
  - by apply matches_opt_some.
  - apply matches_opt_none.
  - destruct (matches_suffix _ _ _ _ _ Hm) as [w ->].
    replace (consumed (w ++ s') s') with (consumed ((w ++ s') ++ t) (s' ++ t))
      by (by rewrite <- app_assoc, !consumed_app).
    by constructor.
Qed.

Lemma matches_fits r s s' g g' : matches r s s' g g' -> fits r s s' g g'.
Proof.
  induction 1; simpl; eauto 10.
Qed.

(** X3. A line is extracted exactly when some prefix of it has the shape the
    pattern describes; the attribute error that skips a line is raised
    exactly when no prefix has.  The groups of the match are those of such a
    reading of the line. *)
Theorem extracted_iff_fits line :
  (is_Some (re_match runner_pattern line) <->
   exists rest g, matches runner_pattern (list_ascii_of_string line) rest [] g)
  /\ (match_groupdict line = Raise AttributeError <->
      ~ exists rest g, matches runner_pattern (list_ascii_of_string line) rest [] g)
  /\ (forall g, re_match runner_pattern line = Some g ->
      exists rest, matches runner_pattern (list_ascii_of_string line) rest [] g).
Proof.
  assert (H1 : forall g, re_match runner_pattern line = Some g ->
      exists rest, matches runner_pattern (list_ascii_of_string line) rest [] g).
  { intros g H. apply run_sound in H as (rest & g' & Hm & [= ->]). eauto. }
  assert (H2 : (exists rest g, matches runner_pattern (list_ascii_of_string line) rest [] g) ->
               is_Some (re_match runner_pattern line)).
  { intros (rest & g & Hm). by apply (run_complete _ _ _ _ _ Hm). }
  split_and!; [|  |exact H1].
  - split; [|exact H2]. intros [g Hg]. destruct (H1 g Hg) as [rest ?]. eauto.
  - unfold match_groupdict. split.
    + destruct (re_match runner_pattern line) eqn:E; [done|].
      intros _ Hex. apply H2 in Hex as [? ?]. congruence.
    + intros Hno. destruct (re_match runner_pattern line) as [g|] eqn:E; [|done].
      exfalso. apply Hno. destruct (H1 g eq_refl) as [rest ?]. eauto.
Qed.

(** X4. The match is anchored at the start of the line only: a line that is
    extracted is still extracted when any text is put after it. *)
Theorem extraction_ignores_what_follows line extra :
  is_Some (re_match runner_pattern line) ->
  is_Some (re_match runner_pattern (line +:+ extra)).
Proof.
  intros [g Hg]. apply run_sound in Hg as (rest & g' & Hm & _).
  unfold re_match. rewrite list_ascii_of_string_app.
  apply (run_complete _ _ _ _ _ (matches_extend _ _ _ _ _ (list_ascii_of_string extra) Hm)).
  by eauto.
Qed.

Lemma extraction_ignores_what_follows_witness :
  is_Some (re_match runner_pattern scenario_line_with_token) /\
  is_Some (re_match runner_pattern (scenario_line_with_token +:+ " 12.3 km")).
Proof.
  split; [eexists; vm_compute; reflexivity|].
  apply (extraction_ignores_what_follows scenario_line_with_token " 12.3 km").
  eexists; vm_compute; reflexivity.
Defined.

End Acceptance.


(** * The shape of the extracted fields *)
Section Shapes.

Lemma string_of_list_nonempty w :
  (1 <= length w)%nat -> string_of_list_ascii w <> "".
Proof. destruct w; simpl; [lia|done]. Qed.

Lemma Forall_negate_chr a w :
  Forall (fun c => negate (is_chr a) c = true) w -> Forall (fun c => c <> a) w.
Proof.
  intros Hw. eapply Forall_impl; [exact Hw|]. intros c H Heq. subst.
  unfold negate, is_chr in H. by rewrite Ascii.eqb_refl in H.
Qed.

Lemma Forall_negate_digit w :
  Forall (fun c => negate is_digit c = true) w -> Forall (fun c => is_digit c = false) w.
Proof.
  intros Hw. eapply Forall_impl; [exact Hw|].
  intros c H. unfold negate in H. by destruct (is_digit c).
Qed.

(** X5. The fields of an extracted record: the category is not empty and
    has no blank, the name is not empty and has no digit, the location has no
    line feed, the time, when there is one, is not empty and made of digits,
    colons, periods and commas; the line starts with the category followed by
    a blank and holds both parentheses. *)
Theorem extracted_fields_shapes line g :
  re_match runner_pattern line = Some g ->
  exists category rang fullname age_year location,
    group g "Category" = Some category /\ group g "Rang" = Some rang /\
    group g "Fullname" = Some fullname /\ group g "Age_year" = Some age_year /\
    group g "Location" = Some location /\
    category <> "" /\ Forall (fun c => c <> " "%char) (chars category) /\
    fullname <> "" /\ Forall (fun c => is_digit c = false) (chars fullname) /\
    Forall (fun c => c <> "010"%char) (chars location) /\
    match group g "total_time" with
    | Some t => t <> "" /\ Forall (fun c => time_char c = true) (chars t)
    | None => True
    end /\
    (exists rest, chars line = chars category ++ " "%char :: rest) /\
    In "("%char (chars line) /\ In ")"%char (chars line).
Proof.
  unfold re_match. intros H. apply run_sound in H as (s' & g' & H & Hk).
  injection Hk as ->. apply matches_fits in H.
  cbv [runner_pattern cat plus lazy_plus lazy_star exactly one] in H.
  cbn [fits] in H.
  repeat match goal with
  | H : exists _, _ |- _ => destruct H
  | H : _ /\ _ |- _ => destruct H
  | H : _ \/ _ |- _ => destruct H
  end; subst;
  match goal with
  | Hline : list_ascii_of_string line = ?cat ++ ?sp ++ _,
    Hcat : Forall (fun c => negate space c = true) ?cat,
    Hsp : Forall (fun c => space c = true) ?sp,
    Hname : Forall (fun c => negate is_digit c = true) ?name,
    Hloc : Forall (fun c => dot c = true) ?loc |- _ =>
      exists (string_of_list_ascii cat); eexists;
      exists (string_of_list_ascii name); eexists;
      exists (string_of_list_ascii loc);
      unfold chars; rewrite Hline, ?consumed_app, ?list_ascii_of_string_of_list_ascii;
      split_and!;
      [ reflexivity | reflexivity | reflexivity | reflexivity | reflexivity
      | by apply string_of_list_nonempty
      | by apply Forall_negate_chr
      | by apply string_of_list_nonempty
      | by apply Forall_negate_digit
      | by apply Forall_negate_chr
      | cbn; rewrite ?list_ascii_of_string_of_list_ascii;
        first [ done | split; [by apply string_of_list_nonempty|done] ]
      | destruct sp as [|c sp']; [simpl in *; lia|];
        inversion Hsp as [|? ? Hc _]; apply Ascii.eqb_eq in Hc; subst c;
        eexists; reflexivity
      | rewrite !in_app_iff; simpl; tauto
      | rewrite !in_app_iff; simpl; tauto ]
  end.
Qed.

Lemma extracted_fields_shapes_witness :
  re_match runner_pattern scenario_line_with_token
    = Some (ranked_captures (list_ascii_of_string "123")) /\
  exists category rang fullname age_year location,
    let g := ranked_captures (list_ascii_of_string "123") in
    group g "Category" = Some category /\ group g "Rang" = Some rang /\
    group g "Fullname" = Some fullname /\ group g "Age_year" = Some age_year /\
    group g "Location" = Some location /\
    category <> "" /\ Forall (fun c => c <> " "%char) (chars category) /\
    fullname <> "" /\ Forall (fun c => is_digit c = false) (chars fullname) /\
    Forall (fun c => c <> "010"%char) (chars location) /\
    match group g "total_time" with
    | Some t => t <> "" /\ Forall (fun c => time_char c = true) (chars t)
    | None => True
    end /\
    (exists rest, chars scenario_line_with_token = chars category ++ " "%char :: rest) /\
    In "("%char (chars scenario_line_with_token) /\
    In ")"%char (chars scenario_line_with_token).
Proof.
  split; [vm_compute; reflexivity|].
  apply (extracted_fields_shapes scenario_line_with_token). vm_compute. reflexivity.
Defined.

End Shapes.


(** * More on the cleaning pass *)
Section CleaningAgain.

Implicit Types df st out : gmap string (list value).

Lemma pick_length_le {A} (mask : list bool) : forall col : list A,
  (length (pick mask col) <= length (List.filter id mask))%nat.
Proof.
  induction mask as [|b mask IH]; intros [|v col]; cbn; try lia.
  specialize (IH col). destruct b; cbn; lia.
Qed.

Lemma pick_length_eq {A} (mask : list bool) : forall col : list A,
  length col = length mask ->
  length (pick mask col) = length (List.filter id mask).
Proof.
  induction mask as [|b mask IH]; intros [|v col] Hlen; cbn in *; try lia.
  specialize (IH col). destruct b; cbn; lia.
Qed.

Lemma pick_all_true {A} (mask : list bool) : forall col : list A,
  Forall (fun b => b = true) mask -> (length col <= length mask)%nat ->
  pick mask col = col.
Proof.
  induction mask as [|b mask IH]; intros [|v col] Hall Hlen; simpl in *; try done; try lia.
  inversion Hall; subst. f_equal. apply IH; [done|lia].
Qed.

Lemma pick_Forall {A} (P : A -> Prop) (mask : list bool) : forall col : list A,
  Forall P col -> Forall P (pick mask col).
Proof.
  induction mask as [|b mask IH]; intros [|v col] Hall; simpl; try constructor.
  inversion Hall; subst. destruct b; [constructor|]; auto.
Qed.

Lemma valid_rows_keep_mask birth event :
  Forall2 valid_row birth event ->
  Forall (fun b => b = true) (keep_mask (sub_Int64 event birth)) /\
  length (keep_mask (sub_Int64 event birth)) = length birth.
Proof.
  rewrite keep_mask_map. unfold sub_Int64.
  induction 1 as [|a r birth event (b & e & -> & -> & Hpos & _) _ [IH1 IH2]];
    simpl; [by split|].
  split; [|by rewrite IH2].
  constructor; [|done]. unfold keep_cell. simpl. by apply Z.ltb_lt.
Qed.

Lemma int64_cells_astype col :
  Forall (fun v => int64_cell v = true) col ->
  astype_Int64 (to_numeric col) = Ok col.
Proof.
  induction 1 as [|v col Hv _ IH]; simpl; [done|].
  fold (to_numeric col). destruct v as [|z| |]; try done; simpl in *.
  - by rewrite Hv, IH.
  - by rewrite IH.
Qed.

Lemma int64_cells_astype_plain col :
  Forall (fun v => int64_cell v = true) col -> astype_Int64 col = Ok col.
Proof.
  induction 1 as [|v col Hv _ IH]; simpl; [done|].
  destruct v as [|z| |]; try done; simpl in *.
  - by rewrite Hv, IH.
  - by rewrite IH.
Qed.

(** X6. Cleaning is idempotent on frames of RawRecords: applied to the frame
    it returned, the pass returns that same frame. *)
Theorem clean_twice df :
  raw_frame df = true ->
  exists out st,
    clean_runners_data df = (Ok out, st) /\
    fst (clean_runners_data out) = Ok out.
Proof.
  intros Hraw.
  destruct (clean_raw df Hraw) as (ay & ry & Hay & Hry & Hb & He & Hlen & Hclean).
  cbv zeta in Hclean. eexists _, _. split; [exact Hclean|].
  set (mask := keep_mask (sub_Int64 ry (to_numeric ay))) in *.
  set (st := <["age":=sub_Int64 ry (to_numeric ay)]>
               (<["run_year":=ry]> (<["Age_year":=to_numeric ay]> df))) in *.
  set (out := delete "age" (select mask st)).
  assert (Hoa : out !! "Age_year" = Some (pick mask (to_numeric ay))).
  { subst out st. unfold select. rewrite lookup_delete_ne, lookup_fmap by done.
    by rewrite lookup_insert_ne, lookup_insert_ne, lookup_insert_eq. }
  assert (Hor : out !! "run_year" = Some (pick mask ry)).
  { subst out st. unfold select. rewrite lookup_delete_ne, lookup_fmap by done.
    by rewrite lookup_insert_ne, lookup_insert_eq. }
  pose proof (kept_rows_valid ay ry Hb He) as Hvalid. cbv zeta in Hvalid. fold mask in Hvalid.
  destruct (valid_rows_keep_mask _ _ Hvalid) as [Htrue Hmlen].
  rewrite (clean_run out (pick mask (to_numeric ay)) (pick mask ry)
             (pick mask (to_numeric ay)) (pick mask ry) Hoa Hor).
  - simpl. f_equal. apply map_eq. intros c.
    destruct (decide (c = "age")) as [->|Hc].
    { subst out. by rewrite !lookup_delete_eq. }
    rewrite lookup_delete_ne by done. unfold select at 1. rewrite lookup_fmap.
    rewrite lookup_insert_ne by done.
    assert (Hsame : <["run_year":=pick mask ry]>
                      (<["Age_year":=pick mask (to_numeric ay)]> out) !! c = out !! c).
    { destruct (decide (c = "run_year")) as [->|?]; [by rewrite lookup_insert_eq|].
      rewrite lookup_insert_ne by done.
      destruct (decide (c = "Age_year")) as [->|?]; [by rewrite lookup_insert_eq|].
      by rewrite lookup_insert_ne. }
    rewrite Hsame. destruct (out !! c) as [col|] eqn:Hcol; [|done]. simpl. f_equal.
    apply pick_all_true; [done|]. rewrite Hmlen.
    subst out. unfold select in Hcol.
    rewrite lookup_delete_ne, lookup_fmap in Hcol by done.
    destruct (st !! c) as [col0|]; [|done]. injection Hcol as <-.
    rewrite (pick_length_eq mask (to_numeric ay)).
    + apply pick_length_le.
    + subst mask. rewrite keep_mask_map. unfold sub_Int64, to_numeric.
      rewrite !length_map, length_zip_with, !length_map. lia.
  - apply int64_cells_astype. apply pick_Forall. by apply to_numeric_int64.
  - apply int64_cells_astype_plain. apply pick_Forall. by apply raw_event_int64.
Qed.

Lemma clean_twice_witness :
  raw_frame sample_frame = true /\
  exists out st,
    clean_runners_data sample_frame = (Ok out, st) /\
    fst (clean_runners_data out) = Ok out.
Proof. split; [reflexivity|]. apply (clean_twice sample_frame). reflexivity. Defined.



End CleaningAgain.


(** * More on the dashboard *)
Section DashboardAgain.

Lemma set_age_group_cases age :
  (age <= 20 /\ set_age_group age = "0-20") \/
  (20 < age <= 30 /\ set_age_group age = "20-30") \/
  (30 < age <= 40 /\ set_age_group age = "30-40") \/
  (40 < age <= 50 /\ set_age_group age = "40-50") \/
  (50 < age /\ set_age_group age = "50+").
Proof.
  unfold set_age_group.
  destruct (Z.leb_spec age 20); [left; split; [lia|done]|].
  destruct (Z.ltb_spec 20 age); [|lia].
  destruct (Z.leb_spec age 30); simpl; [right; left; split; [lia|done]|].
  destruct (Z.ltb_spec 30 age); [|lia].
  destruct (Z.leb_spec age 40); simpl; [right; right; left; split; [lia|done]|].
  destruct (Z.ltb_spec 40 age); [|lia].
  destruct (Z.leb_spec age 50); simpl; [right; right; right; left; split; [lia|done]|].
  right; right; right; right. split; [lia|done].
Qed.

(** X8. The labels are ordered, as strings, like the ages they stand for:
    a greater age never gets a smaller label.  So the key order in which
    [groupby] lists the groups of one year is the order of the ages. *)
Theorem set_age_group_monotone age1 age2 :
  age1 <= age2 ->
  String.compare (set_age_group age1) (set_age_group age2) <> Gt
  /\ forall year, key_compare (year, set_age_group age1) (year, set_age_group age2) <> Gt.
Proof.
  intros Hle.
  assert (H : String.compare (set_age_group age1) (set_age_group age2) <> Gt).
  { destruct (set_age_group_cases age1) as [[? ->]|[[? ->]|[[? ->]|[[? ->]|[? ->]]]]];
    destruct (set_age_group_cases age2) as [[? ->]|[[? ->]|[[? ->]|[[? ->]|[? ->]]]]];
      try lia; by vm_compute. }
  split; [done|]. intros year. unfold key_compare. simpl. by rewrite Z.compare_refl.
Qed.

Lemma set_age_group_monotone_witness :
  20 <= 21 /\
  String.compare (set_age_group 20) (set_age_group 21) <> Gt
  /\ forall year, key_compare (year, set_age_group 20) (year, set_age_group 21) <> Gt.
Proof. split; [lia|]. apply (set_age_group_monotone 20 21). lia. Defined.

Lemma groupby_keys keys : forall groups x,
  In x (List.map group_key (fold_left (fun groups k => tally k groups) keys groups)) ->
  In x keys \/ In x (List.map group_key groups).
Proof.
  induction keys as [|k keys IH]; intros groups x Hx; simpl in *; [by right|].
  apply IH in Hx as [Hx|Hx]; [by left; right|].
  apply tally_keys in Hx as [->|Hx]; [by left; left|by right].
Qed.

Lemma df2_observed table g :
  In g (df2 table) -> exists a, In a (df table) /\ athlete_key a = group_key g.
Proof.
  intros Hg. assert (Hk : In (group_key g) (List.map group_key (df2 table)))
    by (by apply in_map).
  unfold df2, groupby_size in Hk. apply groupby_keys in Hk as [Hk|[]].
  apply in_map_iff in Hk as (a & Ha & Hin). by exists a.
Qed.

Lemma df2_count table g :
  In g (df2 table) ->
  Count_athletes g =
  Z.of_nat (length (List.filter (fun a => bool_decide (athlete_key a = group_key g))
                                (df table))).
Proof.
  intros Hg.
  pose proof (df2_sum (fun k => bool_decide (k = group_key g)) table) as H.
  cbv beta in H.
  rewrite <- H, (filter_unique_key _ g (sorted_keys_NoDup _ (df2_sorted table)) Hg).
  unfold sum_counts. simpl. lia.
Qed.

Lemma df2_count_positive table g : In g (df2 table) -> 1 <= Count_athletes g.
Proof.
  intros Hg. rewrite (df2_count table g Hg).
  destruct (df2_observed table g Hg) as (a & Ha & Hk).
  assert (Hin : In a (List.filter (fun a => bool_decide (athlete_key a = group_key g))
                                  (df table))).
  { apply filter_In. split; [done|]. by apply bool_decide_eq_true_2. }
  destruct (List.filter _ (df table)); [done|]. simpl. lia.
Qed.

Lemma sum_counts_ge groups :
  Forall (fun g => 1 <= Count_athletes g) groups ->
  Z.of_nat (length groups) <= sum_counts groups.
Proof.
  unfold sum_counts. induction 1 as [|g groups Hg _ IH]; simpl; lia.
Qed.

(** X9. [groupby] makes a group only for a pair of year and age group that
    occurs: every row of [df2] is the key of some row of [df] and counts at
    least one athlete, there are at most as many groups as rows, and for every
    pair of selections the chart data is empty exactly when the table is. *)
Theorem groups_are_observed table years groups :
  (forall g, In g (df2 table) ->
     1 <= Count_athletes g /\
     exists a, In a (df table) /\ athlete_key a = group_key g)
  /\ (length (df2 table) <= length (df table))%nat
  /\ (fst (update_chart_and_table table years groups) = [] <->
      snd (update_chart_and_table table years groups) = []).
Proof.
  split_and!.
  - intros g Hg. split; [by apply (df2_count_positive table)|by apply df2_observed].
  - pose proof (df2_sum (fun _ => true) table) as H. rewrite !filter_true in H.
    assert (Hge : Z.of_nat (length (df2 table)) <= sum_counts (df2 table)).
    { apply sum_counts_ge, Forall_forall. intros g Hg%list_elem_of_In.
      by apply (df2_count_positive table). }
    lia.
  - rewrite update_chart_and_table_filters. simpl.
    pose proof (df2_sum (selected years groups) table) as H.
    assert (Hge : Z.of_nat (length (List.filter
                     (fun g => selected years groups (group_key g)) (df2 table)))
                  <= sum_counts (List.filter
                     (fun g => selected years groups (group_key g)) (df2 table))).
    { apply sum_counts_ge, Forall_forall. intros g Hg%list_elem_of_In.
      apply filter_In in Hg as [Hg _]. by apply (df2_count_positive table). }
    split; intros Heq; rewrite Heq in *.
    + unfold sum_counts in H. simpl in H.
      destruct (List.filter _ (df table)); [done|]. simpl in H. lia.
    + simpl in H. rewrite H in Hge.
      destruct (List.filter _ (df2 table)); [done|]. simpl in Hge. lia.
Qed.

End DashboardAgain.


(** * Dropdowns and selections *)
Section Dropdowns.

Lemma unique_In {A} `{EqDecision A} (l : list A) y : In y (unique l) <-> In y l.
Proof.
  induction l as [|x rest IH]; simpl; [done|].
  rewrite filter_In, IH, negb_true_iff, bool_decide_eq_false.
  destruct (decide (y = x)); naive_solver.
Qed.

Lemma unique_NoDup {A} `{EqDecision A} (l : list A) : List.NoDup (unique l).
Proof.
  induction l as [|x rest IH]; simpl; constructor.
  - rewrite filter_In, negb_true_iff, bool_decide_eq_false. naive_solver.
  - by apply List.NoDup_filter.
Qed.

Lemma filter_none {A} (p : A -> bool) (l : list A) :
  (forall x, In x l -> p x = false) -> List.filter p l = [].
Proof.
  induction l as [|x l IH]; simpl; [done|]. intros H.
  rewrite (H x) by (by left). apply IH. intros y Hy. apply H. by right.
Qed.

Lemma filter_sublist {A} (p : A -> bool) (l : list A) : sublist (List.filter p l) l.
Proof.
  induction l as [|x l IH]; simpl; [constructor|].
  destruct (p x); by constructor.
Qed.

Lemma truthy_ext (l1 l2 : list string) :
  (forall x, In x l1 <-> In x l2) -> truthy (Some l1) = truthy (Some l2).
Proof.
  intros H. destruct l1 as [|x l1], l2 as [|y l2]; simpl; try done.
  - destruct (proj2 (H y)). by left.
  - destruct (proj1 (H x)). by left.
Qed.

Lemma isin_ext cell (l1 l2 : list string) :
  (forall x, In x l1 <-> In x l2) -> isin cell (Some l1) = isin cell (Some l2).
Proof.
  intros H. apply eq_true_iff_eq. by rewrite !isin_In.
Qed.

Lemma selected_ext years1 years2 groups1 groups2 k :
  (forall x, In x years1 <-> In x years2) ->
  (forall x, In x groups1 <-> In x groups2) ->
  selected (Some years1) (Some groups1) k = selected (Some years2) (Some groups2) k.
Proof.
  intros Hy Hg. unfold selected.
  by rewrite (truthy_ext _ _ Hy), (truthy_ext _ _ Hg),
             (isin_ext _ _ _ Hy), (isin_ext _ _ _ Hg).
Qed.

Lemma NoDup_map_str (l : list Z) : List.NoDup l -> List.NoDup (List.map str l).
Proof.
  induction 1 as [|x l Hx _ IH]; simpl; constructor; [|done].
  intros Hin. apply in_map_iff in Hin as (y & Hy & Hin).
  unfold str in Hy. apply (inj pretty) in Hy. by subst.
Qed.

Lemma year_offered table a :
  In a (df table) -> isin (str (run_year (runner a))) (Some (year_options table)) = true.
Proof.
  intros Ha. apply isin_In. unfold year_options. apply in_map, unique_In.
  by apply (in_map (fun a => run_year (runner a))).
Qed.

Lemma age_group_offered table a :
  In a (df table) -> isin (age_group a) (Some (age_group_options table)) = true.
Proof.
  intros Ha. apply isin_In. unfold age_group_options. apply unique_In.
  by apply in_map.
Qed.


(** X11. A selection acts as a set: two lists with the same elements select
    the same rows, whatever their order and repetitions.  What is returned
    keeps the order of the data, and a non-empty selection of years none of
    which occurs in the data gives an empty table and an empty chart. *)
Theorem selection_is_a_set table years1 years2 groups1 groups2 :
  (forall x, In x years1 <-> In x years2) ->
  (forall x, In x groups1 <-> In x groups2) ->
  update_chart_and_table table (Some years1) (Some groups1)
    = update_chart_and_table table (Some years2) (Some groups2)
  /\ sublist (fst (update_chart_and_table table (Some years1) (Some groups1))) (df2 table)
  /\ sublist (snd (update_chart_and_table table (Some years1) (Some groups1))) (df table)
  /\ (years1 <> [] ->
      (forall a, In a (df table) -> ~ In (str (run_year (runner a))) years1) ->
      update_chart_and_table table (Some years1) (Some groups1) = ([], [])).
Proof.
  intros Hy Hg. rewrite !update_chart_and_table_filters. simpl. split_and!.
  - f_equal; apply List.filter_ext; intros x; by apply selected_ext.
  - apply filter_sublist.
  - apply filter_sublist.
  - intros Hne Hnone.
    assert (Hsel : forall a, In a (df table) ->
              selected (Some years1) (Some groups1) (athlete_key a) = false).
    { intros a Ha. unfold selected, athlete_key. simpl fst.
      assert (Ht : truthy (Some years1) = true) by (by destruct years1).
      assert (Hi : isin (str (run_year (runner a))) (Some years1) = false).
      { apply not_true_is_false. rewrite isin_In. by apply Hnone. }
      by rewrite Ht, Hi. }
    f_equal; apply filter_none.
    + intros g Hg'. destruct (df2_observed table g Hg') as (a & Ha & Hk).
      rewrite <- Hk. by apply Hsel.
    + exact Hsel.
Qed.

Lemma selection_is_a_set_witness :
  (forall x, In x ["2020"; "2019"] <-> In x ["2019"; "2020"; "2020"]) /\
  (forall x, In x ["30-40"] <-> In x ["30-40"; "30-40"]) /\
  (update_chart_and_table sample_table (Some ["2020"; "2019"]) (Some ["30-40"])
    = update_chart_and_table sample_table (Some ["2019"; "2020"; "2020"])
                             (Some ["30-40"; "30-40"])
  /\ sublist (fst (update_chart_and_table sample_table (Some ["2020"; "2019"])
                                          (Some ["30-40"]))) (df2 sample_table)
  /\ sublist (snd (update_chart_and_table sample_table (Some ["2020"; "2019"])
                                          (Some ["30-40"]))) (df sample_table)
  /\ (["2020"; "2019"] <> [] ->
      (forall a, In a (df sample_table) ->
                 ~ In (str (run_year (runner a))) ["2020"; "2019"]) ->
      update_chart_and_table sample_table (Some ["2020"; "2019"]) (Some ["30-40"])
        = ([], []))).
Proof.
  assert (H1 : forall x, In x ["2020"; "2019"] <-> In x ["2019"; "2020"; "2020"])
    by (simpl; tauto).
  assert (H2 : forall x, In x ["30-40"] <-> In x ["30-40"; "30-40"])
    by (simpl; tauto).
  split; [exact H1|]. split; [exact H2|].
  exact (selection_is_a_set sample_table _ _ _ _ H1 H2).
Defined.

End Dropdowns.


(** * From the cleaned frame to the dashboard *)
Section Stored.

Implicit Types frame df st out : gmap string (list value).

Lemma column_ok_cell frame k ok c i :
  column_ok frame k ok c = true -> (i < k)%nat ->
  exists v, cell frame c i = Some v /\ ok v = true.
Proof.
  unfold column_ok, cell. destruct (frame !! c) as [col|]; [|done]. simpl.
  intros [Hlen Hall]%andb_true_iff Hi. apply Nat.eqb_eq in Hlen.
  destruct (lookup_lt_is_Some_2 col i) as [v Hv]; [lia|].
  exists v. split; [done|]. rewrite forallb_forall in Hall.
  by apply Hall, list_elem_of_In, list_elem_of_lookup_2 with i.
Qed.

Lemma stored_row_Some frame k i :
  storable frame k = true -> (i < k)%nat ->
  exists r, stored_row frame i = Some r /\ Id r = Z.of_nat i /\
    cell frame "Category" i = Some (VStr (Category r)) /\
    cell frame "Rang" i = Some (VStr (Rang r)) /\
    cell frame "Fullname" i = Some (VStr (Fullname r)) /\
    cell frame "Age_year" i = Some (VInt (Age_year r)) /\
    cell frame "Location" i = Some (VStr (Location r)) /\
    (cell frame "total_time" i ≫= as_text) = Some (total_time r) /\
    cell frame "run_link" i = Some (VStr (run_link r)) /\
    cell frame "run_year" i = Some (VInt (run_year r)).
Proof.
  unfold storable. cbn [forallb]. rewrite !andb_true_iff.
  intros [[(Hc & Hr & Hf & Hl & Hu & _) (Ha & Hy & _)] Ht] Hi.
  destruct (column_ok_cell _ _ _ _ i Hc Hi) as ([c| | |] & Hc' & ?); try done.
  destruct (column_ok_cell _ _ _ _ i Hr Hi) as ([r| | |] & Hr' & ?); try done.
  destruct (column_ok_cell _ _ _ _ i Hf Hi) as ([f| | |] & Hf' & ?); try done.
  destruct (column_ok_cell _ _ _ _ i Hl Hi) as ([l| | |] & Hl' & ?); try done.
  destruct (column_ok_cell _ _ _ _ i Hu Hi) as ([u| | |] & Hu' & ?); try done.
  destruct (column_ok_cell _ _ _ _ i Ha Hi) as ([|a| |] & Ha' & ?); try done.
  destruct (column_ok_cell _ _ _ _ i Hy Hi) as ([|y| |] & Hy' & ?); try done.
  destruct (column_ok_cell _ _ _ _ i Ht Hi) as (t & Ht' & Hok).
  assert (Htext : exists t', as_text t = Some t') by (destruct t; by eauto).
  destruct Htext as [t' Htext].
  unfold stored_row. rewrite Hc', Hr', Hf', Hl', Hu', Ha', Hy', Ht'. simpl.
  rewrite Htext. simpl. eexists. split; [reflexivity|]. by simpl.
Qed.

Lemma stored_rows_Some frame k n : forall start,
  storable frame k = true -> (start + n <= k)%nat ->
  exists rows, mapM (stored_row frame) (seq start n) = Some rows /\
    length rows = n /\
    forall j r, rows !! j = Some r ->
      stored_row frame (start + j) = Some r.
Proof.
  induction n as [|n IH]; intros start Hs Hle; simpl.
  - exists []. split; [done|]. split; [done|]. by intros j r.
  - destruct (stored_row_Some frame k start Hs) as (r & Hr & _); [lia|].
    destruct (IH (S start) Hs) as (rows & Hrows & Hlen & Hall); [lia|].
    exists (r :: rows). rewrite Hr. simpl. rewrite Hrows. simpl.
    split; [done|]. split; [by rewrite Hlen|].
    intros [|j] r'; simpl.
    + intros [= <-]. by rewrite Nat.add_0_r.
    + intros Hj. rewrite <- Nat.add_succ_comm. by apply Hall.
Qed.

Lemma stored_table_rows frame k :
  storable frame k = true ->
  exists table,
    stored_table frame = Some table /\ length table = k /\
    forall i r, table !! i = Some r ->
      Id r = Z.of_nat i /\
      cell frame "Category" i = Some (VStr (Category r)) /\
      cell frame "Rang" i = Some (VStr (Rang r)) /\
      cell frame "Fullname" i = Some (VStr (Fullname r)) /\
      cell frame "Age_year" i = Some (VInt (Age_year r)) /\
      cell frame "Location" i = Some (VStr (Location r)) /\
      (cell frame "total_time" i ≫= as_text) = Some (total_time r) /\
      cell frame "run_link" i = Some (VStr (run_link r)) /\
      cell frame "run_year" i = Some (VInt (run_year r)).
Proof.
  intros Hs.
  assert (Hry : exists col, frame !! "run_year" = Some col /\ length col = k).
  { unfold storable in Hs. cbn [forallb] in Hs. rewrite !andb_true_iff in Hs.
    destruct Hs as [[_ (_ & Hy & _)] _]. unfold column_ok in Hy.
    destruct (frame !! "run_year") as [col|]; [|done].
    apply andb_true_iff in Hy as [Hlen%Nat.eqb_eq _]. by exists col. }
  destruct Hry as (col & Hcol & Hlen).
  destruct (stored_rows_Some frame k k 0 Hs) as (rows & Hrows & Hrlen & Hall); [lia|].
  exists rows. unfold stored_table. rewrite Hcol. simpl. rewrite Hlen.
  split; [exact Hrows|]. split; [exact Hrlen|].
  intros i r Hi. specialize (Hall i r Hi). simpl in Hall.
  assert (Hlt : (i < k)%nat) by (apply lookup_lt_Some in Hi; lia).
  destruct (stored_row_Some frame k i Hs Hlt) as (r' & Hr' & Hfields).
  rewrite Hall in Hr'. injection Hr' as <-. exact Hfields.
Qed.

Lemma column_ok_inv frame n ok c :
  column_ok frame n ok c = true ->
  exists col, frame !! c = Some col /\ length col = n /\ forallb ok col = true.
Proof.
  unfold column_ok. destruct (frame !! c) as [col|]; [|done].
  intros [Hlen%Nat.eqb_eq Hok]%andb_true_iff. by exists col.
Qed.

Lemma cell_sql_text frame c i :
  (frame !! c ≫= (fun col => adapt <$> col !! i)) ≫= sql_text = cell frame c i ≫= as_str.
Proof.
  unfold cell. destruct (frame !! c) as [col|]; simpl; [|done].
  by destruct (col !! i) as [[]|].
Qed.

Lemma cell_sql_integer frame c i :
  (frame !! c ≫= (fun col => adapt <$> col !! i)) ≫= sql_integer
    = cell frame c i ≫= as_int.
Proof.
  unfold cell. destruct (frame !! c) as [col|]; simpl; [|done].
  by destruct (col !! i) as [[]|].
Qed.

Lemma cell_sql_nullable_text frame c i :
  (frame !! c ≫= (fun col => adapt <$> col !! i)) ≫= sql_nullable_text
    = cell frame c i ≫= as_text.
Proof.
  unfold cell. destruct (frame !! c) as [col|]; simpl; [|done].
  by destruct (col !! i) as [[]|].
Qed.

(** A row written by [to_sql] is read as the row of the frame. *)
Lemma runner_of_frame_row frame i :
  runner_of_row (<["Id" := SqlInteger (Z.of_nat i)]> (frame_row frame i))
    = stored_row frame i.
Proof.
  unfold runner_of_row, stored_row, frame_row.
  rewrite lookup_insert_eq. rewrite !lookup_insert_ne by done. rewrite !lookup_omap.
  rewrite !cell_sql_text, !cell_sql_integer, !cell_sql_nullable_text. done.
Qed.

Lemma mapM_map {A B C} (f : B -> option C) (g : A -> B) (l : list A) :
  mapM f (List.map g l) = mapM (fun x => f (g x)) l.
Proof. induction l as [|x l IH]; simpl; [done|]. by rewrite IH. Qed.

Lemma mapM_pointwise {A B} (f g : A -> option B) (l : list A) :
  (forall x, f x = g x) -> mapM f l = mapM g l.
Proof. intros H. induction l as [|x l IH]; simpl; [done|]. by rewrite H, IH. Qed.

(** What the dashboard reads after [save_to_sqlite], whatever the database
    held before. *)
Lemma read_after_save frame table_name db :
  read_sql_query table_name (save_to_sqlite frame table_name db)
    = mapM (stored_row frame) (seq 0 (height frame)).
Proof.
  unfold read_sql_query, save_to_sqlite, to_sql. rewrite lookup_insert_eq. simpl.
  rewrite mapM_map. apply mapM_pointwise. intros i. apply runner_of_frame_row.
Qed.



Lemma column_ok_concat (r : gmap string value) df n ok c v :
  r !! c = Some v -> ok v = true ->
  column_ok df n ok c = true -> column_ok (concat_row r df) (S n) ok c = true.
Proof.
  intros Hr Hv. unfold column_ok. destruct (df !! c) as [col|] eqn:E; [|done].
  rewrite (concat_row_lookup r df c v col) by done. simpl. by rewrite Hv.
Qed.

Lemma column_ok_stack ok c records : forall df n,
  Forall (fun r : gmap string value => exists v, r !! c = Some v /\ ok v = true) records ->
  column_ok df n ok c = true ->
  column_ok (stack records df) (length records + n) ok c = true.
Proof.
  induction records as [|r rest IH]; intros df n Hall Hdf; simpl; [done|].
  inversion Hall as [|? ? (v & Hv & Hok) Hrest]; subst.
  replace (S (length rest + n)) with (length rest + S n)%nat by lia.
  apply IH; [done|].
  by eapply column_ok_concat.
Qed.

Lemma column_ok_pick frame frame' k ok c mask col :
  frame !! c = Some col -> frame' !! c = Some (pick mask col) ->
  length col = length mask -> forallb ok col = true ->
  k = length (List.filter id mask) ->
  column_ok frame' k ok c = true.
Proof.
  intros _ H' Hlen Hok ->. unfold column_ok. rewrite H'.
  rewrite (pick_length_eq mask col Hlen), Nat.eqb_refl. simpl.
  apply forallb_forall. intros v Hv%list_elem_of_In.
  rewrite forallb_forall in Hok.
  assert (HF : Forall (fun v => ok v = true) (pick mask col)).
  { apply pick_Forall, Forall_forall. intros x Hx. by apply Hok, list_elem_of_In. }
  rewrite Forall_forall in HF. by apply HF.
Qed.

End Stored.


(** * From the pages to the dashboard *)
Section Pipeline.

Implicit Types frame df st out : gmap string (list value).

Lemma raw_rows_column ok c records :
  Forall raw_row records ->
  (forall category rang fullname age_year location total_time url year,
     exists v, raw_record category rang fullname age_year location total_time url year
                 !! c = Some v /\ ok v = true) ->
  column_ok empty_frame 0 ok c = true ->
  column_ok (stack records empty_frame) (length records) ok c = true.
Proof.
  intros Hall Hcell H0. rewrite <- (Nat.add_0_r (length records)).
  apply column_ok_stack; [|done].
  eapply Forall_impl; [exact Hall|].
  intros r (c0 & k & f & a & l & t & u & y & -> & _). apply Hcell.
Qed.

Lemma valid_rows_ints birth event :
  Forall2 valid_row birth event ->
  forallb is_int birth = true /\ forallb is_int event = true.
Proof.
  induction 1 as [|a r birth event (b & e & -> & -> & _) _ [IH1 IH2]]; simpl; [done|].
  by rewrite IH1, IH2.
Qed.

Lemma cleaned_storable records :
  Forall raw_row records ->
  exists out st birth event,
    clean_runners_data (stack records empty_frame) = (Ok out, st) /\
    out !! "Age_year" = Some birth /\ out !! "run_year" = Some event /\
    Forall2 valid_row birth event /\
    (length birth <= length records)%nat /\
    storable out (length birth) = true.
Proof.
  intros Hall. set (df := stack records empty_frame). set (n := length records).
  assert (Hraw : raw_frame df = true) by (by apply raw_frame_stack).
  destruct (clean_raw df Hraw) as (ay & ry & Hay & Hry & Hb & He & Hlen & Hclean).
  cbv zeta in Hclean.
  set (mask := keep_mask (sub_Int64 ry (to_numeric ay))) in *.
  set (st := <["age":=sub_Int64 ry (to_numeric ay)]>
               (<["run_year":=ry]> (<["Age_year":=to_numeric ay]> df))) in *.
  set (out := delete "age" (select mask st)) in *.
  assert (Hstr : forall c, c ∈ ["Category"; "Rang"; "Fullname"; "Location"; "run_link";
                                "Age_year"] ->
                 column_ok df n is_str c = true).
  { intros c Hc. apply raw_rows_column; [done| |].
    - intros. repeat (apply elem_of_cons in Hc as [->|Hc]; [by eexists|]).
      by apply elem_of_nil in Hc.
    - repeat (apply elem_of_cons in Hc as [->|Hc]; [reflexivity|]).
      by apply elem_of_nil in Hc. }
  assert (Htime : column_ok df n is_text "total_time" = true).
  { apply raw_rows_column; [done| |reflexivity].
    intros ? ? ? ? ? time ? ?. exists (from_option VStr VNone time).
    split; [reflexivity|]. by destruct time. }
  assert (Hn : length ay = n).
  { destruct (column_ok_inv _ _ _ _ (Hstr "Age_year" ltac:(set_solver)))
      as (col & Hcol & Hl & _). rewrite Hay in Hcol. by injection Hcol as ->. }
  assert (Hmask : length mask = n).
  { subst mask. rewrite keep_mask_map. unfold sub_Int64, to_numeric.
    rewrite !length_map, length_zip_with, !length_map. lia. }
  pose proof (kept_rows_valid ay ry Hb He) as Hvalid. cbv zeta in Hvalid. fold mask in Hvalid.
  destruct (valid_rows_ints _ _ Hvalid) as [Hbi Hei].
  assert (Hk : length (pick mask (to_numeric ay)) = length (List.filter id mask)).
  { apply pick_length_eq. unfold to_numeric. rewrite length_map. lia. }
  assert (Hout : forall c, c <> "age" -> out !! c = pick mask <$> st !! c).
  { intros c Hc. subst out. unfold select. by rewrite lookup_delete_ne, lookup_fmap. }
  assert (Hoa : out !! "Age_year" = Some (pick mask (to_numeric ay))).
  { rewrite Hout by done. subst st.
    by rewrite lookup_insert_ne, lookup_insert_ne, lookup_insert_eq. }
  assert (Hor : out !! "run_year" = Some (pick mask ry)).
  { rewrite Hout by done. subst st. by rewrite lookup_insert_ne, lookup_insert_eq. }
  assert (Hother : forall c ok, c <> "age" -> c <> "Age_year" -> c <> "run_year" ->
            column_ok df n ok c = true ->
            column_ok out (length (pick mask (to_numeric ay))) ok c = true).
  { intros c ok H1 H2 H3 Hc.
    destruct (column_ok_inv _ _ _ _ Hc) as (col & Hcol & Hl & Hok).
    apply (column_ok_pick df out _ ok c mask col); try done; [|lia].
    rewrite Hout by done. subst st. by rewrite !lookup_insert_ne, Hcol. }
  exists out, st, (pick mask (to_numeric ay)), (pick mask ry).
  split; [exact Hclean|]. split; [done|]. split; [done|]. split; [done|].
  split. { rewrite Hk. pose proof (List.filter_length_le id mask). fold n. lia. }
  unfold storable. cbn [forallb]. rewrite !andb_true_iff. split_and!; try done.
  - apply Hother; try done. apply Hstr. set_solver.
  - apply Hother; try done. apply Hstr. set_solver.
  - apply Hother; try done. apply Hstr. set_solver.
  - apply Hother; try done. apply Hstr. set_solver.
  - apply Hother; try done. apply Hstr. set_solver.
  - unfold column_ok. by rewrite Hoa, Nat.eqb_refl, Hbi.
  - unfold column_ok. rewrite Hor.
    rewrite (Forall2_length _ _ _ Hvalid), Nat.eqb_refl. by rewrite Hei.
  - by apply Hother.
Qed.

End Pipeline.


(** * [main], then the dashboard's start-up *)
Section EndToEnd.

Variable get : string -> fetch_error + string.
Variable runners_of : string -> list string.
Variable int : string -> result Z.
Hypothesis int_digits : forall s, all_digits s = true -> int s = Ok (decimal s).

(** X13. The two programs composed.  When the years are strings of digits
    whose values fit 64 bits, then whatever the pages hold: scraping returns a
    frame, cleaning returns on it, the cleaned frame fits the table of
    [save_to_sqlite] and is read back with one row per cleaned row (each of
    the eight columns is as long as the table), not more rows than lines were
    extracted, and every athlete of the dashboard's [df]
    has a positive age, and a birth year before the event year when the
    event year is not within 9999 of the smallest 64-bit integer. *)
Theorem dashboard_ages_positive years :
  Forall (fun year => all_digits year = true /\ in_int64 (decimal year) = true) years ->
  exists frame out st table,
    scrape_runners_data get runners_of int years = Ok frame /\
    clean_runners_data frame = (Ok out, st) /\
    stored_table out = Some table /\
    (forall c, c ∈ columns ->
       exists col, out !! c = Some col /\ length col = length table) /\
    (length table <= length (concat (List.map (fun year =>
        records_of_year get runners_of year (decimal year)) years)))%nat /\
    Forall (fun a => 0 < age a /\
                     (int64_min + 9999 <= run_year (runner a) ->
                      Age_year (runner a) < run_year (runner a)))
           (df table).
Proof.
  intros Hy.
  assert (Hd : Forall (fun year => all_digits year = true) years)
    by (eapply Forall_impl; [exact Hy|]; by intros ? [? _]).
  pose proof (scrape_years_stack get runners_of int int_digits years empty_frame Hd) as Hs.
  fold (scrape_runners_data get runners_of int years) in Hs.
  set (records := concat (List.map (fun year =>
            records_of_year get runners_of year (decimal year)) years)) in *.
  assert (Hall : Forall raw_row records).
  { apply Forall_concat, Forall_forall.
    intros rs Hrs%list_elem_of_In%in_map_iff. destruct Hrs as (year & <- & Hin).
    apply records_of_year_raw. rewrite Forall_forall in Hy.
    by apply Hy, list_elem_of_In. }
  destruct (cleaned_storable records Hall)
    as (out & st & birth & event & Hclean & Hb & He & Hvalid & Hle & Hst).
  destruct (stored_table_rows out _ Hst) as (table & Htable & Hlen & Hrows).
  exists (stack records empty_frame), out, st, table.
  split; [exact Hs|]. split; [exact Hclean|]. split; [exact Htable|].
  split; [|split; [lia|]].
  - intros c Hc. unfold storable in Hst. cbn [forallb] in Hst.
    rewrite !andb_true_iff in Hst.
    destruct Hst as [[(H1 & H2 & H3 & H4 & H5 & _) (H6 & H7 & _)] H8].
    rewrite Hlen. vm_compute in Hc.
    repeat (apply elem_of_cons in Hc as [->|Hc];
            [match goal with
             | H : column_ok out _ _ ?c = true |- context [out !! ?c] =>
                 destruct (column_ok_inv _ _ _ _ H) as (col & Hcol & Hl & _);
                 by exists col
             end|]).
    by apply elem_of_nil in Hc.
  - apply Forall_forall. intros a Ha%list_elem_of_In. unfold df in Ha.
    apply in_map_iff in Ha as (r & <- & Hr). cbn [age runner].
    apply list_elem_of_In, list_elem_of_lookup in Hr as [i Hi].
    destruct (Hrows i r Hi) as (_ & _ & _ & _ & Hca & _ & _ & _ & Hcr).
    unfold cell in Hca, Hcr. rewrite Hb in Hca. rewrite He in Hcr. simpl in Hca, Hcr.
    destruct (Forall2_lookup_lr _ _ _ _ _ _ Hvalid Hca Hcr)
      as (b & e & [= <-] & [= <-] & Hpos & Hplain).
    split; [done|]. intros Hbig. specialize (Hplain Hbig). lia.
Qed.

End EndToEnd.

Lemma dashboard_ages_positive_witness :
  (forall s, all_digits s = true -> int_of_digits s = Ok (decimal s)) /\
  Forall (fun year => all_digits year = true /\ in_int64 (decimal year) = true)
         main_years /\
  exists frame out st table,
    scrape_runners_data sample_get sample_runners_of int_of_digits main_years = Ok frame /\
    clean_runners_data frame = (Ok out, st) /\
    stored_table out = Some table /\
    (forall c, c ∈ columns ->
       exists col, out !! c = Some col /\ length col = length table) /\
    (length table <= length (concat (List.map (fun year =>
        records_of_year sample_get sample_runners_of year (decimal year))
        main_years)))%nat /\
    Forall (fun a => 0 < age a /\
                     (int64_min + 9999 <= run_year (runner a) ->
                      Age_year (runner a) < run_year (runner a)))
           (df table).
Proof.
  split; [reflexivity|]. split; [repeat constructor|].
  apply (dashboard_ages_positive sample_get sample_runners_of int_of_digits);
    [reflexivity|repeat constructor].
Defined.
